(** * google-calendar-mcp: the tool-dispatch layer of [src/index.js]

    A shallow embedding of the MCP server's request handlers
    ([ListToolsRequestSchema], [CallToolRequestSchema]) and of the four
    calendar handlers, together with the properties of the specification
    that concern them.

    The embedding has three layers:
    - [Js]: the fragment of JavaScript the handlers rely on (values,
      truthiness, property reads, template-literal conversion,
      [Array.prototype.map], [JSON.stringify]) and a small monad for
      exceptions and for the trace of Calendar Client calls;
    - [Mcp]: the result and error envelopes of the protocol;
    - [Server]: the handlers and the dispatcher, function by function. *)

From Stdlib Require Import ZArith List String Ascii Bool Lia DecimalString.
Import ListNotations.
Local Open Scope list_scope.
Local Open Scope string_scope.

(* ===================================================================== *)
(** ** JavaScript values *)
(* ===================================================================== *)

Module Js.

(** The values that travel through the handlers: tool arguments (decoded
    JSON), the objects built for the provider and the provider's answers.
    Numbers are the integers and [NaN]: the handlers only test numbers for
    truthiness, print them and forward them, so fractions are not needed.
    [VNum z] is the Number a JSON integer literal [z] reads as, that is
    the double nearest to [z].
    An object is its list of own properties in insertion order; a read
    takes the first binding of a key. *)
#[warnings="-register-all"]
Inductive value : Type :=
| VUndefined
| VNull
| VBool (b : bool)
| VNum (z : Z)
| VNaN
| VStr (s : string)
| VArr (elems : list value)
| VObj (props : list (string * value)).

(** [ToBoolean]: the falsy values are [undefined], [null], [false], [0],
    [NaN] and the empty string. *)
Definition truthy (v : value) : bool :=
  match v with
  | VUndefined | VNull | VNaN => false
  | VBool b => b
  | VNum z => negb (z =? 0)%Z
  | VStr s => negb (s =? "")
  | VArr _ | VObj _ => true
  end.

(** [a || b] *)
Definition or_else (a b : value) : value := if truthy a then a else b.

Definition nullish (v : value) : bool :=
  match v with
  | VUndefined | VNull => true
  | _ => false
  end.

Definition is_array (v : value) : bool :=
  match v with
  | VArr _ => true
  | _ => false
  end.

(** Own-property lookup in an object's property list. *)
Fixpoint lookup (k : string) (props : list (string * value)) : option value :=
  match props with
  | [] => None
  | (k', v) :: rest => if k' =? k then Some v else lookup k rest
  end.

Definition keys (props : list (string * value)) : list string :=
  map fst props.

(** [obj.k = v] on an ordinary object: an existing key keeps its place,
    a new key goes last. *)
Fixpoint set_prop (k : string) (v : value) (props : list (string * value))
  : list (string * value) :=
  match props with
  | [] => [(k, v)]
  | (k', v') :: rest =>
      if k' =? k then (k, v) :: rest else (k', v') :: set_prop k v rest
  end.

Definition decimal (z : Z) : string := NilZero.string_of_int (Z.to_int z).

(** *** Number::toString on integers *)

(** The double nearest to the natural number [a], ties to the even
    mantissa; [None] is [Infinity]. Below 2^53 every integer is a
    double. *)
Definition nearest_double (a : Z) : option Z :=
  (if a <? 2 ^ 53 then Some a
   else
     let q := Z.log2 a - 52 in
     let m := a / 2 ^ q in
     let r := a - m * 2 ^ q in
     let half := 2 ^ (q - 1) in
     let m' := if r <? half then m
               else if half <? r then m + 1
               else if Z.even m then m else m + 1 in
     let v := m' * 2 ^ q in
     if 2 ^ 1024 <=? v then None else Some v)%Z.

(** [reads_as v x]: the integer [x] reads as the double [v], for
    [v >= 2^53]. The two bounds are the midpoints to the neighbouring
    doubles, four times enlarged to stay among the integers; they belong
    to [v] when its mantissa is even. *)
Definition reads_as (v x : Z) : bool :=
  (let q := Z.log2 v - 52 in
   let m := v / 2 ^ q in
   let below := if m =? 2 ^ 52 then 2 ^ q else 2 ^ (q + 1) in
   let above := 2 ^ (q + 1) in
   if Z.even m
   then (4 * v - below <=? 4 * x) && (4 * x <=? 4 * v + above)
   else (4 * v - below <? 4 * x) && (4 * x <? 4 * v + above))%Z.

(** The integer with the fewest significant digits that reads as [v]:
    the multiple of the largest power of ten, at most [10 ^ zeros], that
    does; of two, the one closest to [v], then the even one. *)
Fixpoint shortest (zeros : nat) (v : Z) : Z :=
  match zeros with
  | O => v
  | S fewer =>
      (let p := 10 ^ Z.of_nat zeros in
       let lo := (v / p) * p in
       let hi := lo + p in
       let lo_ok := (0 <? lo) && reads_as v lo in
       let hi_ok := reads_as v hi in
       if lo_ok && hi_ok then
         if v - lo <? hi - v then lo
         else if hi - v <? v - lo then hi
         else if Z.even (lo / p) then lo else hi
       else if lo_ok then lo
       else if hi_ok then hi
       else shortest fewer v)%Z
  end.

Fixpoint strip_zeros (reversed : list ascii) : list ascii :=
  match reversed with
  | "0"%char :: rest => strip_zeros rest
  | _ => reversed
  end.

(** The digits of a numeral without its trailing zeros. *)
Definition significant (digits : string) : string :=
  string_of_list_ascii
    (rev (strip_zeros (rev (list_ascii_of_string digits)))).

(** Up to 21 digits a number prints in full, beyond that as
    [d.ddde+N]. *)
Definition format_digits (x : Z) : string :=
  let digits := decimal x in
  let n := String.length digits in
  if Nat.leb n 21 then digits
  else
    let exponent := "e+" ++ decimal (Z.of_nat (n - 1)) in
    match significant digits with
    | String d EmptyString => String d exponent
    | String d rest => String d ("." ++ rest ++ exponent)
    | EmptyString => digits
    end.

Definition number_to_string (z : Z) : string :=
  let sign := if (z <? 0)%Z then "-" else "" in
  match nearest_double (Z.abs z) with
  | None => sign ++ "Infinity"
  | Some v =>
      if (v <? 2 ^ 53)%Z then decimal z
      else sign ++ format_digits (shortest (String.length (decimal v)) v)
  end.

(** [JSON.stringify] on a number: [null] when it is not finite. *)
Definition number_to_json (z : Z) : string :=
  match nearest_double (Z.abs z) with
  | None => "null"
  | Some _ => number_to_string z
  end.

Fixpoint all_some {A} (l : list (option A)) : option (list A) :=
  match l with
  | [] => Some []
  | None :: _ => None
  | Some x :: rest =>
      match all_some rest with
      | Some xs => Some (x :: xs)
      | None => None
      end
  end.

Definition join (sep : string) (parts : list string) : string :=
  match parts with
  | [] => ""
  | p :: ps => fold_left (fun acc q => acc ++ sep ++ q) ps p
  end.

(** [ToString], as applied by a template literal [`${v}`]; [None] where
    it throws. An array prints through [join]. An ordinary object prints
    through [Object.prototype.toString] unless it has a property
    [toString] of its own: no value of this fragment is callable, so the
    conversion then finds no method that gives a primitive and throws. *)
Fixpoint to_string (v : value) : option string :=
  match v with
  | VUndefined => Some "undefined"
  | VNull => Some "null"
  | VBool true => Some "true"
  | VBool false => Some "false"
  | VNum z => Some (number_to_string z)
  | VNaN => Some "NaN"
  | VStr s => Some s
  | VArr elems =>
      match all_some (map (fun e => if nullish e then Some ""
                                    else to_string e) elems) with
      | Some parts => Some (join "," parts)
      | None => None
      end
  | VObj props =>
      match lookup "toString" props with
      | Some _ => None
      | None => Some "[object Object]"
      end
  end.

(** How [undefined] and [null] are named in the runtime's messages. *)
Definition nullish_name (v : value) : string :=
  match v with
  | VNull => "null"
  | _ => "undefined"
  end.

(** *** JSON.stringify(v, null, 2) *)

Definition hex_digit (n : nat) : ascii :=
  match n with
  | 0 => "0" | 1 => "1" | 2 => "2" | 3 => "3" | 4 => "4" | 5 => "5"
  | 6 => "6" | 7 => "7" | 8 => "8" | 9 => "9" | 10 => "a" | 11 => "b"
  | 12 => "c" | 13 => "d" | 14 => "e" | _ => "f"
  end%char.

(** [QuoteJSONString] on one character: the two-character escapes, then
    [\u00XX] for the remaining control characters. *)
Definition json_escape (c : ascii) : string :=
  let n := nat_of_ascii c in
  match n with
  | 8 => "\b"
  | 9 => "\t"
  | 10 => "\n"
  | 12 => "\f"
  | 13 => "\r"
  | 34 => String "\" (String c "")
  | 92 => "\\"
  | _ =>
      if Nat.ltb n 32
      then "\u00" ++ String (hex_digit (n / 16)) (String (hex_digit (n mod 16)) "")
      else String c ""
  end.

Fixpoint json_escape_all (s : string) : string :=
  match s with
  | EmptyString => ""
  | String c rest => json_escape c ++ json_escape_all rest
  end.

Definition dquote : string := String (ascii_of_nat 34) "".
Definition newline : string := String (ascii_of_nat 10) "".

Definition json_quote (s : string) : string :=
  dquote ++ json_escape_all s ++ dquote.

(** [SerializeJSONProperty] with gap two spaces; [None] is the
    [undefined] that [JSON.stringify] returns for [undefined]. Object
    members whose value serializes to [undefined] are dropped, array
    elements that do are written [null]. *)
Fixpoint json_serialize (indent : string) (v : value) : option string :=
  let inner := indent ++ "  " in
  match v with
  | VUndefined => None
  | VNull => Some "null"
  | VBool true => Some "true"
  | VBool false => Some "false"
  | VNum z => Some (number_to_json z)
  | VNaN => Some "null"
  | VStr s => Some (json_quote s)
  | VArr elems =>
      match elems with
      | [] => Some "[]"
      | _ =>
          let parts :=
            map (fun e => match json_serialize inner e with
                          | Some s => s
                          | None => "null"
                          end) elems in
          Some ("[" ++ newline ++ inner
                    ++ join ("," ++ newline ++ inner) parts
                    ++ newline ++ indent ++ "]")
      end
  | VObj props =>
      let members :=
        (fix go (ps : list (string * value)) : list string :=
           match ps with
           | [] => []
           | (k, x) :: rest =>
               match json_serialize inner x with
               | Some s => (json_quote k ++ ": " ++ s) :: go rest
               | None => go rest
               end
           end) props in
      match members with
      | [] => Some "{}"
      | _ =>
          Some ("{" ++ newline ++ inner
                    ++ join ("," ++ newline ++ inner) members
                    ++ newline ++ indent ++ "}")
      end
  end.

Definition JSON_stringify (v : value) : value :=
  match json_serialize "" v with
  | Some s => VStr s
  | None => VUndefined
  end.

(** A property read [v.k] on a value that is neither [undefined] nor
    [null]. Primitives and arrays have no own property of the names the
    handlers read, except [length]; inherited methods are not values of
    this fragment. *)
Definition prop (v : value) (k : string) : value :=
  match v with
  | VObj props =>
      match lookup k props with
      | Some x => x
      | None => VUndefined
      end
  | VStr s => if k =? "length" then VNum (Z.of_nat (String.length s)) else VUndefined
  | VArr elems => if k =? "length" then VNum (Z.of_nat (List.length elems)) else VUndefined
  | _ => VUndefined
  end.

(** Optional chaining [v?.k]. *)
Definition opt_prop (v : value) (k : string) : value :=
  if nullish v then VUndefined else prop v k.

(** A destructuring default [{ k = d }]: it applies to [undefined] only. *)
Definition default_to (v d : value) : value :=
  match v with
  | VUndefined => d
  | _ => v
  end.

End Js.

(* ===================================================================== *)
(** ** Protocol envelopes *)
(* ===================================================================== *)

Module Mcp.
Import Js.

(** The SDK's error codes; the server uses [MethodNotFound] only. *)
Inductive ErrorCode : Type :=
| ConnectionClosed
| RequestTimeout
| ParseError
| InvalidRequest
| MethodNotFound
| InvalidParams
| InternalError.

(** One entry of a result's [content]. [text] is a JavaScript value:
    the handlers always write the key, but not always a string. *)
Record ContentItem : Type := {
  type : string;
  text : value
}.

(** The object a handler returns. [isError] is [None] where the object
    literal has no such key. *)
Record ToolResult : Type := {
  content : list ContentItem;
  isError : option bool
}.

Record Property : Type := {
  prop_type : string;
  prop_items : option string;
  prop_description : string
}.

Record InputSchema : Type := {
  schema_type : string;
  properties : list (string * Property);
  required : option (list string)
}.

Record ToolDefinition : Type := {
  name : string;
  description : string;
  inputSchema : InputSchema
}.

(** [request.params] of a [tools/call] request: the SDK's schema makes
    [name] a string and [arguments] an optional record. *)
Record CallToolParams : Type := {
  params_name : string;
  params_arguments : value
}.

End Mcp.

(* ===================================================================== *)
(** ** Exceptions and the Calendar Client trace *)
(* ===================================================================== *)

Module Eff.
Import Js Mcp.

(** What can be thrown. The runtime raises [TypeError]s, the Calendar
    Client rejects with [Error] objects, the dispatcher constructs an
    [McpError] from a code and a message. The [TypeError] texts are V8's. *)
Inductive Exn : Type :=
| Error (message : string)
| TypeError (message : string)
| McpError (code : ErrorCode) (message : string).

(** [error.message] *)
Definition message (e : Exn) : string :=
  match e with
  | Error m | TypeError m | McpError _ m => m
  end.

Inductive Outcome (A : Type) : Type :=
| Return (a : A)
| Throw (e : Exn).
Arguments Return {A} a.
Arguments Throw {A} e.

(** The four operations of [calendar.events] the server uses. *)
Inductive ClientOp : Type :=
| EventsList
| EventsInsert
| EventsPatch
| EventsDelete.

(** One call made to the Calendar Client: the operation and its
    parameter object. *)
Definition Call : Type := ClientOp * value.

(** A computation runs against the trace of client calls made so far,
    extends it, and returns or throws. *)
Definition M (A : Type) : Type := list Call -> Outcome A * list Call.

Definition ret {A} (a : A) : M A := fun log => (Return a, log).

Definition throw {A} (e : Exn) : M A := fun log => (Throw e, log).

Definition bind {A B} (m : M A) (k : A -> M B) : M B :=
  fun log =>
    match m log with
    | (Return a, log') => k a log'
    | (Throw e, log') => (Throw e, log')
    end.

(** [try { body } catch (error) { handler }] *)
Definition try_catch {A} (body : M A) (handler : Exn -> M A) : M A :=
  fun log =>
    match body log with
    | (Return a, log') => (Return a, log')
    | (Throw e, log') => handler e log'
    end.

(** [await client(params)]: the call is recorded, then the client's
    answer (resolution or rejection) is the outcome. *)
Definition await (op : ClientOp) (client : value -> Outcome value)
    (params : value) : M value :=
  fun log => (client params, log ++ [(op, params)])%list.

Declare Scope js_scope.
Delimit Scope js_scope with js.
Notation "x <- m ;; k" := (bind m (fun x => k))
  (at level 100, m at next level, right associativity) : js_scope.
Notation "m ;;; k" := (bind m (fun _ => k))
  (at level 100, right associativity) : js_scope.
Local Open Scope js_scope.

(** [v.k] where [v] may be [undefined] or [null]. *)
Definition get (v : value) (k : string) : M value :=
  if nullish v
  then throw (TypeError ("Cannot read properties of " ++ nullish_name v
                           ++ " (reading '" ++ k ++ "')"))
  else ret (prop v k).

(** The check a destructuring pattern [const { k, ... } = src] makes
    before it reads any property; [k] is the pattern's first key. *)
Definition destructurable (v : value) (k src : string) : M unit :=
  if nullish v
  then throw (TypeError ("Cannot destructure property '" ++ k ++ "' of '"
                           ++ src ++ "' as it is " ++ nullish_name v ++ "."))
  else ret tt.

(** A substitution [${v}] of a template literal. *)
Definition template (v : value) : M string :=
  match to_string v with
  | Some s => ret s
  | None => throw (TypeError "Cannot convert object to primitive value")
  end.

Fixpoint mapM (f : value -> M value) (l : list value) : M (list value) :=
  match l with
  | [] => ret []
  | x :: rest =>
      y <- f x ;;
      ys <- mapM f rest ;;
      ret (y :: ys)
  end.

(** [recv.map(f)], [expr] being the source text of [recv.map]. Only
    arrays have a [map] method in this fragment. *)
Definition call_map (recv : value) (expr : string) (f : value -> M value)
  : M value :=
  match recv with
  | VArr elems => ys <- mapM f elems ;; ret (VArr ys)
  | VUndefined | VNull =>
      throw (TypeError ("Cannot read properties of " ++ nullish_name recv
                          ++ " (reading 'map')"))
  | _ => throw (TypeError (expr ++ " is not a function"))
  end.

(** [recv?.map(f)] *)
Definition opt_call_map (recv : value) (expr : string)
    (f : value -> M value) : M value :=
  if nullish recv then ret VUndefined else call_map recv expr f.

End Eff.

(* ===================================================================== *)
(** ** The server: [src/index.js] *)
(* ===================================================================== *)

Module Server.
Import Js Mcp Eff.
Local Open Scope js_scope.

(** What the handlers read from the process: the clock, as
    [new Date().toISOString()] renders it, and the local time zone, as
    [Intl.DateTimeFormat().resolvedOptions().timeZone] reports it. *)
Record Env : Type := {
  now : string;
  timeZone : string
}.

(** The authenticated client [calendar]: each operation of
    [calendar.events] takes a parameter object and resolves with a
    response or rejects. *)
Record Calendar : Type := {
  events_list : value -> Outcome value;
  events_insert : value -> Outcome value;
  events_patch : value -> Outcome value;
  events_delete : value -> Outcome value
}.

(** *** ListToolsRequestSchema handler (lines 44-156) *)

Definition str_prop (d : string) : Property :=
  {| prop_type := "string"; prop_items := None; prop_description := d |}.

Definition tools : list ToolDefinition :=
  [ {| name := "list_events";
       description := "List upcoming calendar events";
       inputSchema :=
         {| schema_type := "object";
            properties :=
              [ ("maxResults",
                 {| prop_type := "number"; prop_items := None;
                    prop_description :=
                      "Maximum number of events to return (default: 10)" |});
                ("timeMin", str_prop "Start time in ISO format (default: now)");
                ("timeMax", str_prop "End time in ISO format") ];
            required := None |} |};
    {| name := "create_event";
       description := "Create a new calendar event";
       inputSchema :=
         {| schema_type := "object";
            properties :=
              [ ("summary", str_prop "Event title");
                ("location", str_prop "Event location");
                ("description", str_prop "Event description");
                ("start", str_prop "Start time in ISO format");
                ("end", str_prop "End time in ISO format");
                ("attendees",
                 {| prop_type := "array"; prop_items := Some "string";
                    prop_description := "List of attendee email addresses" |}) ];
            required := Some ["summary"; "start"; "end"] |} |};
    {| name := "update_event";
       description := "Update an existing calendar event";
       inputSchema :=
         {| schema_type := "object";
            properties :=
              [ ("eventId", str_prop "Event ID to update");
                ("summary", str_prop "New event title");
                ("location", str_prop "New event location");
                ("description", str_prop "New event description");
                ("start", str_prop "New start time in ISO format");
                ("end", str_prop "New end time in ISO format");
                ("attendees",
                 {| prop_type := "array"; prop_items := Some "string";
                    prop_description :=
                      "New list of attendee email addresses" |}) ];
            required := Some ["eventId"] |} |};
    {| name := "delete_event";
       description := "Delete a calendar event";
       inputSchema :=
         {| schema_type := "object";
            properties := [ ("eventId", str_prop "Event ID to delete") ];
            required := Some ["eventId"] |} |} ].

Definition listTools : M (list ToolDefinition) := ret tools.

(** *** handleCreateEvent (lines 177-220) *)

(** [(email) => ({ email })] *)
Definition attendee (email : value) : M value :=
  ret (VObj [("email", email)]).

(** [{ dateTime: t, timeZone: Intl.DateTimeFormat().resolvedOptions().timeZone }] *)
Definition endpoint (env : Env) (t : value) : value :=
  VObj [("dateTime", t); ("timeZone", VStr (timeZone env))].

(** [response.data.id] *)
Definition response_id (response : value) : M value :=
  data <- get response "data" ;;
  get data "id".

Definition handleCreateEvent (env : Env) (args : value) (calendar : Calendar)
  : M ToolResult :=
  try_catch
    (destructurable args "summary" "args" ;;;
     let summary := prop args "summary" in
     let location := prop args "location" in
     let description := prop args "description" in
     let start := prop args "start" in
     let end_ := prop args "end" in
     let attendees := default_to (prop args "attendees") (VArr []) in
     mapped <- call_map attendees "attendees.map" attendee ;;
     let event :=
       VObj [("summary", summary);
             ("location", location);
             ("description", description);
             ("start", endpoint env start);
             ("end", endpoint env end_);
             ("attendees", mapped)] in
     response <- await EventsInsert (events_insert calendar)
                   (VObj [("calendarId", VStr "primary");
                          ("requestBody", event)]) ;;
     id <- response_id response ;;
     id_text <- template id ;;
     ret {| content :=
              [ {| type := "text";
                   text := VStr ("Event created successfully. Event ID: "
                                   ++ id_text) |} ];
            isError := None |})
    (fun error =>
       ret {| content :=
                [ {| type := "text";
                     text := VStr ("Error creating event: "
                                     ++ message error) |} ];
              isError := Some true |}).

(** *** handleUpdateEvent (lines 222-272) *)

(** [if (v) event.k = f(v);] on the property list of [event]. *)
Definition set_if (v : value) (k : string) (x : value)
    (event : list (string * value)) : list (string * value) :=
  if truthy v then set_prop k x event else event.

Definition handleUpdateEvent (env : Env) (args : value) (calendar : Calendar)
  : M ToolResult :=
  try_catch
    (destructurable args "eventId" "args" ;;;
     let eventId := prop args "eventId" in
     let summary := prop args "summary" in
     let location := prop args "location" in
     let description := prop args "description" in
     let start := prop args "start" in
     let end_ := prop args "end" in
     let attendees := prop args "attendees" in
     let event := [] in
     let event := set_if summary "summary" summary event in
     let event := set_if location "location" location event in
     let event := set_if description "description" description event in
     let event := set_if start "start" (endpoint env start) event in
     let event := set_if end_ "end" (endpoint env end_) event in
     event <- (if truthy attendees
               then mapped <- call_map attendees "attendees.map" attendee ;;
                    ret (set_prop "attendees" mapped event)
               else ret event) ;;
     response <- await EventsPatch (events_patch calendar)
                   (VObj [("calendarId", VStr "primary");
                          ("eventId", eventId);
                          ("requestBody", VObj event)]) ;;
     id <- response_id response ;;
     id_text <- template id ;;
     ret {| content :=
              [ {| type := "text";
                   text := VStr ("Event updated successfully. Event ID: "
                                   ++ id_text) |} ];
            isError := None |})
    (fun error =>
       ret {| content :=
                [ {| type := "text";
                     text := VStr ("Error updating event: "
                                     ++ message error) |} ];
              isError := Some true |}).

(** *** handleDeleteEvent (lines 274-302) *)

Definition handleDeleteEvent (args : value) (calendar : Calendar)
  : M ToolResult :=
  try_catch
    (destructurable args "eventId" "args" ;;;
     let eventId := prop args "eventId" in
     _ <- await EventsDelete (events_delete calendar)
            (VObj [("calendarId", VStr "primary");
                   ("eventId", eventId)]) ;;
     id_text <- template eventId ;;
     ret {| content :=
              [ {| type := "text";
                   text := VStr ("Event deleted successfully. Event ID: "
                                   ++ id_text) |} ];
            isError := None |})
    (fun error =>
       ret {| content :=
                [ {| type := "text";
                     text := VStr ("Error deleting event: "
                                     ++ message error) |} ];
              isError := Some true |}).

(** *** handleListEvents (lines 304-346) *)

(** The projection [(event) => ({ id: event.id, ... })]. *)
Definition project (event : value) : M value :=
  id <- get event "id" ;;
  summary <- get event "summary" ;;
  start <- get event "start" ;;
  end_ <- get event "end" ;;
  location <- get event "location" ;;
  ret (VObj [("id", id);
             ("summary", summary);
             ("start", start);
             ("end", end_);
             ("location", location)]).

(** The parameter object of [calendar.events.list]. *)
Definition list_request (env : Env) (args : value) : value :=
  let maxResults := or_else (opt_prop args "maxResults") (VNum 10) in
  let timeMin := or_else (opt_prop args "timeMin") (VStr (now env)) in
  let timeMax := opt_prop args "timeMax" in
  VObj [("calendarId", VStr "primary");
        ("timeMin", timeMin);
        ("timeMax", timeMax);
        ("maxResults", maxResults);
        ("singleEvents", VBool true);
        ("orderBy", VStr "startTime")].

(** [const events = response.data.items?.map(...)] *)
Definition projected (response : value) : M value :=
  data <- get response "data" ;;
  items <- get data "items" ;;
  opt_call_map items "response.data.items?.map" project.

Definition handleListEvents (env : Env) (args : value) (calendar : Calendar)
  : M ToolResult :=
  try_catch
    (response <- await EventsList (events_list calendar)
                   (list_request env args) ;;
     events <- projected response ;;
     ret {| content :=
              [ {| type := "text"; text := JSON_stringify events |} ];
            isError := None |})
    (fun error =>
       ret {| content :=
                [ {| type := "text";
                     text := VStr ("Error fetching calendar events: "
                                     ++ message error) |} ];
              isError := Some true |}).

(** *** CallToolRequestSchema handler (lines 157-173) *)

(** The [switch] over [request.params.name], with the four callees as
    parameters. *)
Definition dispatch_on
    (onList onCreate onUpdate onDelete : value -> Calendar -> M ToolResult)
    (calendar : Calendar) (params : CallToolParams) : M ToolResult :=
  let name := params_name params in
  if name =? "list_events" then onList (params_arguments params) calendar
  else if name =? "create_event" then onCreate (params_arguments params) calendar
  else if name =? "update_event" then onUpdate (params_arguments params) calendar
  else if name =? "delete_event" then onDelete (params_arguments params) calendar
  else throw (McpError MethodNotFound ("Unknown tool: " ++ name)).

Definition dispatch (env : Env) (calendar : Calendar)
    (params : CallToolParams) : M ToolResult :=
  dispatch_on (handleListEvents env) (handleCreateEvent env)
              (handleUpdateEvent env) handleDeleteEvent calendar params.

End Server.

(* ===================================================================== *)
(** ** Construction and start-up: [createMcpServer] and the listener *)
(* ===================================================================== *)

Module Bootstrap.
Import Js Mcp Eff.

(** [process.env]: the variables that are set, each with a string
    value; a read takes the first binding of a name. *)
Definition ProcessEnv : Type := list (string * string).

(** [process.env.K] *)
Fixpoint getenv (k : string) (process_env : ProcessEnv) : value :=
  match process_env with
  | [] => VUndefined
  | (k', v) :: rest => if k' =? k then VStr v else getenv k rest
  end.

(** What [createMcpServer] passes on: the server's identity, the two
    arguments of [new google.auth.OAuth2], the [refresh_token] given to
    [auth.setCredentials], and the version of the calendar API. *)
Record ServerSetup : Type := {
  server_name : string;
  server_version : string;
  CLIENT_ID : value;
  CLIENT_SECRET : value;
  REFRESH_TOKEN : value;
  calendar_version : string
}.

(** [createMcpServer({ config })] (lines 15-38), on the parameter's
    [config]. *)
Definition createMcpServer (config : value) (process_env : ProcessEnv)
  : ServerSetup :=
  {| server_name := "google-calendar-server";
     server_version := "0.1.0";
     CLIENT_ID :=
       or_else (opt_prop config "CLIENT_ID") (getenv "CLIENT_ID" process_env);
     CLIENT_SECRET :=
       or_else (opt_prop config "CLIENT_SECRET")
               (getenv "CLIENT_SECRET" process_env);
     REFRESH_TOKEN :=
       or_else (opt_prop config "REFRESH_TOKEN")
               (getenv "REFRESH_TOKEN" process_env);
     calendar_version := "v3" |}.

(** [const port = process.env.PORT || 8081] (line 349) *)
Definition port (process_env : ProcessEnv) : value :=
  or_else (getenv "PORT" process_env) (VNum 8081).

End Bootstrap.

(* ===================================================================== *)
(** ** Vocabulary of the properties *)
(* ===================================================================== *)

Import Js Mcp Eff Server.
Local Open Scope js_scope.

(** The four registered tool names. *)
Definition tool_names : list string :=
  ["list_events"; "create_event"; "update_event"; "delete_event"].

(** The result envelopes, as the specification describes them. *)
Definition text_result (t : value) : ToolResult :=
  {| content := [ {| type := "text"; text := t |} ]; isError := None |}.

Definition error_result (msg : string) : ToolResult :=
  {| content := [ {| type := "text"; text := VStr msg |} ];
     isError := Some true |}.

(** What a handler returns once the provider has answered and the
    success text is to end in [`${v}`]: the text when [v] converts to a
    string, otherwise the error result for the conversion's failure. *)
Definition confirmation (success failure : string) (v : value) : ToolResult :=
  match to_string v with
  | Some s => text_result (VStr (success ++ s))
  | None =>
      error_result (failure ++ "Cannot convert object to primitive value")
  end.

(** The outcome of a computation started on the empty trace. *)
Definition outcome {A} (m : M A) : Outcome A := fst (m []).

(** [pure m]: running [m] makes no Calendar Client call and its
    outcome does not depend on the calls made before; the outcome is
    then [outcome m]. *)
Definition pure {A} (m : M A) : Prop :=
  forall log, m log = (outcome m, log).

Definition required_fields (t : ToolDefinition) : list string :=
  match required (inputSchema t) with
  | Some fields => fields
  | None => []
  end.

Definition offered_fields (t : ToolDefinition) : list string :=
  map fst (properties (inputSchema t)).

Definition optional_fields (t : ToolDefinition) : list string :=
  filter (fun f => negb (existsb (String.eqb f) (required_fields t)))
         (offered_fields t).

(** The definitions registered under a name. *)
Definition definitions_of (n : string) (l : list ToolDefinition)
  : list ToolDefinition :=
  filter (fun t => name t =? n) l.

(** One row of the table of tool constraints: under [n] there is exactly
    one definition, with these required and these optional fields. *)
Definition table_row (l : list ToolDefinition) (n : string)
    (req opt : list string) : Prop :=
  exists t, definitions_of n l = [t]
            /\ required_fields t = req
            /\ optional_fields t = opt.

(** The parameter object of [calendar.events.delete]. *)
Definition delete_request (args : value) : value :=
  VObj [("calendarId", VStr "primary"); ("eventId", prop args "eventId")].

(** A provider that knows no event. *)
Definition calendar_not_found : Calendar :=
  {| events_list := fun _ => Throw (Error "Not Found");
     events_insert := fun _ => Throw (Error "Not Found");
     events_patch := fun _ => Throw (Error "Not Found");
     events_delete := fun _ => Throw (Error "Not Found") |}.

Definition env_2024 : Env :=
  {| now := "2024-01-01T00:00:00.000Z"; timeZone := "Europe/Paris" |}.

(** A provider whose list response has no [items]. *)
Definition calendar_no_items : Calendar :=
  {| events_list := fun _ => Return (VObj [("data", VObj [("kind", VStr "calendar#events")])]);
     events_insert := fun _ => Throw (Error "Not Found");
     events_patch := fun _ => Throw (Error "Not Found");
     events_delete := fun _ => Throw (Error "Not Found") |}.

(** The five fields an event is projected to, and the projection of an
    event that is neither [undefined] nor [null]. *)
Definition projected_fields : list string :=
  ["id"; "summary"; "start"; "end"; "location"].

Definition projection (event : value) : value :=
  VObj (map (fun k => (k, prop event k)) projected_fields).

(** The statement "the projected list never contains more than
    [maxResults] items": whenever a call asks for [n] results and the
    provider answers, the list [events] the handler builds has at most
    [n] entries. *)
Definition projection_capped : Prop :=
  forall env args calendar n response events,
    opt_prop args "maxResults" = VNum n ->
    events_list calendar (list_request env args) = Return response ->
    outcome (projected response) = Return (VArr events) ->
    (Z.of_nat (List.length events) <= n)%Z.

(** A provider that answers every list call with the same two events. *)
Definition two_events : list value :=
  [ VObj [("id", VStr "e1"); ("summary", VStr "Standup");
          ("etag", VStr "p33"); ("start", VObj [("dateTime", VStr "2024-01-01T10:00:00Z")]);
          ("end", VObj [("dateTime", VStr "2024-01-01T10:15:00Z")])];
    VObj [("id", VStr "e2"); ("summary", VStr "Review");
          ("start", VObj [("dateTime", VStr "2024-01-02T10:00:00Z")]);
          ("end", VObj [("dateTime", VStr "2024-01-02T11:00:00Z")]);
          ("location", VStr "Room 4")] ].

Definition calendar_two_events : Calendar :=
  {| events_list := fun _ => Return (VObj [("data", VObj [("items", VArr two_events)])]);
     events_insert := fun _ => Throw (Error "Not Found");
     events_patch := fun _ => Throw (Error "Not Found");
     events_delete := fun _ => Throw (Error "Not Found") |}.

(** The object [attendees.map((email) => ({ email }))] builds for one
    address. *)
Definition attendee_object (email : value) : value :=
  VObj [("email", email)].

(** The parameter object of [calendar.events.insert]. *)
Definition insert_request (env : Env) (args : value) (attendees : list value)
  : value :=
  VObj [("calendarId", VStr "primary");
        ("requestBody",
         VObj [("summary", prop args "summary");
               ("location", prop args "location");
               ("description", prop args "description");
               ("start", endpoint env (prop args "start"));
               ("end", endpoint env (prop args "end"));
               ("attendees", VArr (map attendee_object attendees))])].

(** A provider that creates (and patches) events under the identifier
    "evt42". *)
Definition calendar_creating : Calendar :=
  {| events_list := fun _ => Return (VObj [("data", VObj [("items", VArr [])])]);
     events_insert := fun _ => Return (VObj [("data", VObj [("id", VStr "evt42")])]);
     events_patch := fun _ => Return (VObj [("data", VObj [("id", VStr "evt42")])]);
     events_delete := fun _ => Return (VObj [("data", VStr "")]) |}.

Definition create_test_args : value :=
  VObj [("summary", VStr "Test");
        ("start", VStr "2024-01-01T10:00:00Z");
        ("end", VStr "2024-01-01T11:00:00Z")].

(** The object that has, for each included key of [ks] in order, the
    entry of that key. *)
Definition sparse (include : string -> bool) (entry : string -> value)
    (ks : list string) : list (string * value) :=
  flat_map (fun k => if include k then [(k, entry k)] else []) ks.

(** The fields update_event can change, in the order the handler tests
    them, and what the patch carries for a field that is included. *)
Definition patch_fields : list string :=
  ["summary"; "location"; "description"; "start"; "end"; "attendees"].

Definition patch_value (env : Env) (args : value) (k : string) : value :=
  if (k =? "start") || (k =? "end") then endpoint env (prop args k)
  else if k =? "attendees" then
    match prop args k with
    | VArr elems => VArr (map attendee_object elems)
    | other => other
    end
  else prop args k.

(** The patch described field by field: a field is present exactly when
    its argument is truthy. *)
Definition sparse_patch (env : Env) (args : value) : list (string * value) :=
  sparse (fun k => truthy (prop args k)) (patch_value env args) patch_fields.

(** The parameter object of [calendar.events.patch]. *)
Definition patch_request (args : value) (body : list (string * value))
  : value :=
  VObj [("calendarId", VStr "primary");
        ("eventId", prop args "eventId");
        ("requestBody", VObj body)].

(** The operation of the Calendar Client behind a recorded call. *)
Definition client (calendar : Calendar) (op : ClientOp)
  : value -> Outcome value :=
  match op with
  | EventsList => events_list calendar
  | EventsInsert => events_insert calendar
  | EventsPatch => events_patch calendar
  | EventsDelete => events_delete calendar
  end.

(** How each tool introduces a failure in its text. *)
Definition failure_label (tool : string) : string :=
  if tool =? "list_events" then "Error fetching calendar events: "
  else if tool =? "create_event" then "Error creating event: "
  else if tool =? "update_event" then "Error updating event: "
  else "Error deleting event: ".

(** The client operation each tool is built on. *)
Definition tool_op (tool : string) : ClientOp :=
  if tool =? "list_events" then EventsList
  else if tool =? "create_event" then EventsInsert
  else if tool =? "update_event" then EventsPatch
  else EventsDelete.

(** The arguments a tool can build its provider call from: any for
    list_events; an argument object for the others, whose [attendees] is
    absent or a list for create_event, falsy or a list for
    update_event. *)
Definition usable (tool : string) (args : value) : bool :=
  if tool =? "list_events" then true
  else if tool =? "create_event" then
    negb (nullish args)
    && is_array (default_to (prop args "attendees") (VArr []))
  else if tool =? "update_event" then
    negb (nullish args)
    && (negb (truthy (prop args "attendees"))
        || is_array (prop args "attendees"))
  else negb (nullish args).

(** [attempts calendar tool ok m]: from every trace, [m] returns a
    result. When [ok] holds it has made exactly one client call, the
    tool's operation on calendar "primary"; otherwise it has made none
    and the result is an error result under the tool's label. If the
    call failed, the result is the error result made of the label and
    the failure's message. *)
Definition attempts (calendar : Calendar) (tool : string) (ok : bool)
    (m : M ToolResult) : Prop :=
  forall log,
  exists r calls,
    m log = (Return r, log ++ calls)%list
    /\ (ok = true ->
        exists request,
          calls = [(tool_op tool, request)]
          /\ prop request "calendarId" = VStr "primary")
    /\ (ok = false ->
        calls = []
        /\ exists msg,
             r = {| content :=
                      [ {| type := "text";
                           text := VStr (failure_label tool ++ msg) |} ];
                    isError := Some true |})
    /\ forall op request e,
         In (op, request) calls ->
         client calendar op request = Throw e ->
         r = {| content :=
                  [ {| type := "text";
                       text := VStr (failure_label tool ++ message e) |} ];
                isError := Some true |}.

Ltac attempt_one_call Hrun :=
  intro log; eexists; eexists;
  split; [apply Hrun |];
  split; [intros _; eexists; split; reflexivity |];
  split; [discriminate |];
  intros op request e [Heq | []] Hfail;
  inversion Heq; subst op request; simpl in Hfail;
  rewrite Hfail; reflexivity.

(** The statement "each tool call is attempted exactly once": every
    call to a registered tool makes exactly one Calendar Client call. *)
Definition one_client_call_per_tool_call : Prop :=
  forall env calendar params log,
    In (params_name params) tool_names ->
    exists r call,
      dispatch env calendar params log = (Return r, log ++ [call])%list.

(** The statement "a field can never be cleared to empty via this
    interface": no patch that update_event sends holds an empty string
    or an empty list. *)
Definition no_field_cleared : Prop :=
  forall env args calendar log r calls request body k v,
    handleUpdateEvent env args calendar log = (r, log ++ calls)%list ->
    In (EventsPatch, request) calls ->
    request = VObj [("calendarId", VStr "primary");
                    ("eventId", prop args "eventId");
                    ("requestBody", VObj body)] ->
    lookup k body = Some v ->
    v <> VStr "" /\ v <> VArr [].

(** Arguments that empty the attendees of an event. *)
Definition clear_attendees_args : value :=
  VObj [("eventId", VStr "abc123"); ("description", VStr "");
        ("attendees", VArr [])].

(** The statement "on provider success the result confirms the deletion
    and echoes the identifier": whenever the provider's delete succeeds,
    the result is not an error. *)
Definition delete_success_is_confirmed : Prop :=
  forall args calendar log response,
    nullish args = false ->
    events_delete calendar
        (VObj [("calendarId", VStr "primary");
               ("eventId", prop args "eventId")])
      = Return response ->
    exists r log',
      handleDeleteEvent args calendar log = (Return r, log')
      /\ isError r = None.



(** An identifier that does not convert to a string: an object with a
    [toString] property of its own. *)
Definition unprintable_id_args : value :=
  VObj [("eventId", VObj [("toString", VStr "x")])].

(** *** Vocabulary of the further properties *)

(** The argument names each tool's handler reads. *)
Definition read_keys (tool : string) : list string :=
  if tool =? "list_events" then ["maxResults"; "timeMin"; "timeMax"]
  else if tool =? "create_event" then patch_fields
  else if tool =? "update_event" then "eventId" :: patch_fields
  else ["eventId"].

(** [targets op m]: from every trace, [m] returns a result and every
    client call it makes is the operation [op] on calendar "primary". *)
Definition targets (op : ClientOp) (m : M ToolResult) : Prop :=
  forall log,
  exists r calls,
    m log = (Return r, log ++ calls)%list
    /\ forall op' request,
         In (op', request) calls ->
         op' = op /\ prop request "calendarId" = VStr "primary".

(** A response that has no [data] to read from. *)
Definition no_data (response : value) : Prop :=
  nullish response = true \/ nullish (prop response "data") = true.

Definition is_undefined (v : value) : bool :=
  match v with
  | VUndefined => true
  | _ => false
  end.

(** The properties of an object whose value is not [undefined]. *)
Definition defined_props (props : list (string * value))
  : list (string * value) :=
  filter (fun kv => negb (is_undefined (snd kv))) props.

(** The projection of an event without the fields the event lacks. *)
Definition present_projection (event : value) : value :=
  VObj (defined_props (map (fun k => (k, prop event k)) projected_fields)).

(** A provider whose insert and patch responses carry no [data]. *)
Definition calendar_no_data : Calendar :=
  {| events_list := fun _ => Return (VObj []);
     events_insert := fun _ => Return (VObj [("status", VNum 200)]);
     events_patch := fun _ => Return VUndefined;
     events_delete := fun _ => Return VUndefined |}.

(** Arguments that give every field of an event. *)
Definition full_args : value :=
  VObj [("eventId", VStr "abc123");
        ("summary", VStr "Planning");
        ("location", VStr "Room 4");
        ("description", VStr "Quarterly planning");
        ("start", VStr "2024-03-01T09:00:00Z");
        ("end", VStr "2024-03-01T10:00:00Z");
        ("attendees", VArr [VStr "ada@example.org"; VStr "bob@example.org"])].

(** A provider whose second event is [null]. *)
Definition calendar_null_event : Calendar :=
  {| events_list :=
       fun _ => Return (VObj [("data",
                  VObj [("items", VArr [VObj [("id", VStr "e1")]; VNull])])]);
     events_insert := fun _ => Throw (Error "Not Found");
     events_patch := fun _ => Throw (Error "Not Found");
     events_delete := fun _ => Throw (Error "Not Found") |}.

(** A provider whose [items] is an object keyed by identifier. *)
Definition calendar_items_object : Calendar :=
  {| events_list :=
       fun _ => Return (VObj [("data",
                  VObj [("items", VObj [("e1", VObj [("id", VStr "e1")])])])]);
     events_insert := fun _ => Throw (Error "Not Found");
     events_patch := fun _ => Throw (Error "Not Found");
     events_delete := fun _ => Throw (Error "Not Found") |}.

(** The three credentials of a setup, by name. *)
Definition credentials (setup : Bootstrap.ServerSetup) : list (string * value) :=
  [("CLIENT_ID", Bootstrap.CLIENT_ID setup);
   ("CLIENT_SECRET", Bootstrap.CLIENT_SECRET setup);
   ("REFRESH_TOKEN", Bootstrap.REFRESH_TOKEN setup)].

(** A configuration that gives one credential and an empty second one,
    and an environment that sets the second. *)
Definition partial_config : value :=
  VObj [("CLIENT_ID", VStr "id-from-config"); ("CLIENT_SECRET", VStr "")].

Definition partial_environment : Bootstrap.ProcessEnv :=
  [("CLIENT_ID", "id-from-env"); ("CLIENT_SECRET", "secret-from-env")].

(* ===================================================================== *)
(** ** Properties *)
(* ===================================================================== *)

(** *** Computations that leave the trace alone *)

Section Pure.

Lemma pure_ret {A} (a : A) : pure (ret a).
Proof. intro log; reflexivity. Qed.

Lemma pure_throw {A} (e : Exn) : pure (@throw A e).
Proof. intro log; reflexivity. Qed.

Lemma pure_bind {A B} (m : M A) (k : A -> M B) :
  pure m -> (forall a, pure (k a)) -> pure (bind m k).
Proof.
  intros Hm Hk log. unfold outcome, bind.
  rewrite (Hm log), (Hm []).
  destruct (outcome m) as [a | e].
  - rewrite (Hk a log), (Hk a []). reflexivity.
  - reflexivity.
Qed.

Lemma pure_get v k : pure (get v k).
Proof. unfold get. destruct (nullish v); [apply pure_throw | apply pure_ret]. Qed.

Lemma pure_mapM f l : (forall x, pure (f x)) -> pure (mapM f l).
Proof.
  intro Hf. induction l as [| x rest IH]; simpl.
  - apply pure_ret.
  - apply pure_bind; [apply Hf |].
    intro y. apply pure_bind; [exact IH |].
    intro ys. apply pure_ret.
Qed.

Lemma pure_call_map recv expr f :
  (forall x, pure (f x)) -> pure (call_map recv expr f).
Proof.
  intro Hf. destruct recv; simpl; try apply pure_throw.
  apply pure_bind; [apply pure_mapM, Hf |].
  intro ys. apply pure_ret.
Qed.

Lemma pure_opt_call_map recv expr f :
  (forall x, pure (f x)) -> pure (opt_call_map recv expr f).
Proof.
  intro Hf. unfold opt_call_map.
  destruct (nullish recv); [apply pure_ret | now apply pure_call_map].
Qed.

Lemma pure_attendee email : pure (attendee email).
Proof. apply pure_ret. Qed.

Lemma pure_project event : pure (project event).
Proof.
  unfold project.
  repeat (apply pure_bind; [apply pure_get | intro]).
  apply pure_ret.
Qed.

Lemma pure_response_id response : pure (response_id response).
Proof.
  unfold response_id.
  apply pure_bind; [apply pure_get | intro; apply pure_get].
Qed.

Lemma pure_template v : pure (template v).
Proof.
  unfold template. destruct (to_string v); [apply pure_ret | apply pure_throw].
Qed.

Lemma pure_projected response : pure (projected response).
Proof.
  unfold projected.
  repeat (apply pure_bind; [apply pure_get | intro]).
  apply pure_opt_call_map, pure_project.
Qed.

(** Mapping a callback that always returns is [List.map]. *)
Lemma mapM_total (f : value -> M value) (g : value -> value) l :
  Forall (fun x => forall log, f x log = (Return (g x), log)) l ->
  forall log, mapM f l log = (Return (map g l), log).
Proof.
  induction 1 as [| x rest Hx _ IH]; intro log; simpl.
  - reflexivity.
  - unfold bind. rewrite Hx, IH. reflexivity.
Qed.

End Pure.

(** *** Dispatch *)

Lemma eqb_false_of_neq (a b : string) : a <> b -> (a =? b) = false.
Proof. intro H. now apply String.eqb_neq. Qed.

(** C1. A call whose name is none of the four tool names makes the
    dispatcher throw [McpError(MethodNotFound, "Unknown tool: <name>")];
    the outcome is a throw, never a returned [ToolResult], no Calendar
    Client call is made, and this holds whatever the four handlers are,
    so none of them is run. *)
Theorem dispatch_unknown_tool :
  forall env calendar params log,
    ~ In (params_name params) tool_names ->
    dispatch env calendar params log
      = (Throw (McpError MethodNotFound
                  ("Unknown tool: " ++ params_name params)), log)
    /\ forall onList onCreate onUpdate onDelete,
         dispatch_on onList onCreate onUpdate onDelete calendar params log
           = (Throw (McpError MethodNotFound
                       ("Unknown tool: " ++ params_name params)), log).
Proof.
  intros env calendar params log Hname.
  assert (Hgen : forall onList onCreate onUpdate onDelete,
             dispatch_on onList onCreate onUpdate onDelete calendar params log
             = (Throw (McpError MethodNotFound
                         ("Unknown tool: " ++ params_name params)), log)).
  { intros. unfold dispatch_on.
    rewrite !eqb_false_of_neq; [reflexivity | | | |];
      intro Heq; apply Hname; rewrite Heq; simpl; auto. }
  split; [apply Hgen | exact Hgen].
Qed.

Lemma dispatch_unknown_tool_witness :
  let params := {| params_name := "send_mail"; params_arguments := VUndefined |} in
  let env := {| now := "2024-01-01T00:00:00.000Z"; timeZone := "UTC" |} in
  let calendar := {| events_list := fun _ => Return VNull;
                     events_insert := fun _ => Return VNull;
                     events_patch := fun _ => Return VNull;
                     events_delete := fun _ => Return VNull |} in
  dispatch env calendar params []
    = (Throw (McpError MethodNotFound "Unknown tool: send_mail"), []).
Proof.
  intros params env calendar.
  apply (dispatch_unknown_tool env calendar params []).
  simpl. intros [H | [H | [H | [H | []]]]]; discriminate H.
Defined.

(** *** The registry *)

(** C7. Listing the tools returns the static catalogue, on every trace
    and without touching it (no client call, no throw). The catalogue
    has exactly the four tool names, one definition each, and each
    definition has the required and optional fields of the table. *)
Theorem listTools_catalogue :
  (forall log, listTools log = (Return tools, log))
  /\ map name tools = tool_names
  /\ NoDup (map name tools)
  /\ table_row tools "list_events" [] ["maxResults"; "timeMin"; "timeMax"]
  /\ table_row tools "create_event" ["summary"; "start"; "end"]
       ["location"; "description"; "attendees"]
  /\ table_row tools "update_event" ["eventId"]
       ["summary"; "location"; "description"; "start"; "end"; "attendees"]
  /\ table_row tools "delete_event" ["eventId"] [].
Proof.
  split; [reflexivity |].
  split; [reflexivity |].
  split.
  { simpl. repeat constructor; simpl; intuition discriminate. }
  repeat split; eexists; (split; [reflexivity | split; reflexivity]).
Qed.

(** *** delete_event *)

Lemma handleDeleteEvent_run args calendar log :
  nullish args = false ->
  handleDeleteEvent args calendar log
    = (Return
         match events_delete calendar (delete_request args) with
         | Return _ =>
             confirmation "Event deleted successfully. Event ID: "
                          "Error deleting event: " (prop args "eventId")
         | Throw e => error_result ("Error deleting event: " ++ message e)
         end,
       log ++ [(EventsDelete, delete_request args)])%list.
Proof.
  intro Hargs.
  unfold handleDeleteEvent, try_catch, bind, destructurable, await.
  rewrite Hargs. simpl. fold (delete_request args).
  destruct (events_delete calendar (delete_request args)); [| reflexivity].
  unfold confirmation, template.
  destruct (to_string (prop args "eventId")); reflexivity.
Qed.

Lemma handleDeleteEvent_no_args args calendar log :
  nullish args = true ->
  handleDeleteEvent args calendar log
    = (Return (error_result
                 ("Error deleting event: Cannot destructure property 'eventId' of 'args' as it is "
                    ++ nullish_name args ++ ".")),
       log).
Proof.
  intro Hargs.
  unfold handleDeleteEvent, try_catch, bind, destructurable.
  rewrite Hargs. reflexivity.
Qed.

(** The provider deletes the event, but its identifier does not convert
    to a string: the handler reports an error. *)
Example delete_event_unprintable_id :
  handleDeleteEvent unprintable_id_args calendar_creating []
    = (Return (error_result
                 "Error deleting event: Cannot convert object to primitive value"),
       [(EventsDelete,
         VObj [("calendarId", VStr "primary");
               ("eventId", VObj [("toString", VStr "x")])])]).
Proof. reflexivity. Qed.

(** C8, as stated, fails: a successful delete is reported as an error
    when the caller's identifier does not convert to a string. *)
Lemma delete_success_not_always_confirmed : ~ delete_success_is_confirmed.
Proof.
  intro H.
  destruct (H unprintable_id_args calendar_creating []
              (VObj [("data", VStr "")]) eq_refl eq_refl)
    as (r & log' & Hrun & Hok).
  change (handleDeleteEvent unprintable_id_args calendar_creating [])
    with (Return (error_result
                    "Error deleting event: Cannot convert object to primitive value"),
          [(EventsDelete,
            VObj [("calendarId", VStr "primary");
                  ("eventId", VObj [("toString", VStr "x")])])])
    in Hrun.
  inversion Hrun; subst r. discriminate Hok.
Qed.

(** C8, amended. A delete_event call with an argument object sends the
    caller's [eventId], unchanged, to the provider's delete on calendar
    "primary". When the provider succeeds and the identifier converts to
    a string, the result is a non-error text confirming the deletion and
    ending in the identifier as printed; when the provider succeeds and
    the identifier does not convert, the result has [isError = true]
    although the event is deleted. When the provider fails, the result
    has [isError = true] and its text is "Error deleting event: "
    followed by the provider's message. *)
Theorem delete_event_result :
  forall args calendar log,
    nullish args = false ->
    let eventId := prop args "eventId" in
    let request := VObj [("calendarId", VStr "primary"); ("eventId", eventId)] in
    (forall response printed,
        events_delete calendar request = Return response ->
        to_string eventId = Some printed ->
        handleDeleteEvent args calendar log
          = (Return {| content :=
                         [ {| type := "text";
                              text := VStr ("Event deleted successfully. Event ID: "
                                              ++ printed) |} ];
                       isError := None |},
             log ++ [(EventsDelete, request)])%list)
    /\ (forall response,
        events_delete calendar request = Return response ->
        to_string eventId = None ->
        handleDeleteEvent args calendar log
          = (Return {| content :=
                         [ {| type := "text";
                              text := VStr "Error deleting event: Cannot convert object to primitive value" |} ];
                       isError := Some true |},
             log ++ [(EventsDelete, request)])%list)
    /\ (forall e,
        events_delete calendar request = Throw e ->
        handleDeleteEvent args calendar log
          = (Return {| content :=
                         [ {| type := "text";
                              text := VStr ("Error deleting event: "
                                              ++ message e) |} ];
                       isError := Some true |},
             log ++ [(EventsDelete, request)])%list).
Proof.
  intros args calendar log Hargs eventId request.
  rewrite (handleDeleteEvent_run _ _ _ Hargs).
  unfold delete_request, confirmation. fold eventId. fold request.
  split; [| split].
  - intros response printed Hresp Hprint. rewrite Hresp, Hprint. reflexivity.
  - intros response Hresp Hprint. rewrite Hresp, Hprint. reflexivity.
  - intros e Hfail. rewrite Hfail. reflexivity.
Qed.

Lemma delete_event_result_witness :
  handleDeleteEvent (VObj [("eventId", VStr "abc123")]) calendar_not_found []
    = (Return (error_result "Error deleting event: Not Found"),
       [(EventsDelete,
         VObj [("calendarId", VStr "primary"); ("eventId", VStr "abc123")])])
  /\ handleDeleteEvent (VObj [("eventId", VStr "abc123")]) calendar_creating []
    = (Return (text_result
                 (VStr "Event deleted successfully. Event ID: abc123")),
       [(EventsDelete,
         VObj [("calendarId", VStr "primary"); ("eventId", VStr "abc123")])])
  /\ handleDeleteEvent unprintable_id_args calendar_creating []
    = (Return (error_result
                 "Error deleting event: Cannot convert object to primitive value"),
       [(EventsDelete,
         VObj [("calendarId", VStr "primary");
               ("eventId", VObj [("toString", VStr "x")])])]).
Proof.
  split; [| split].
  - apply (proj2 (proj2 (delete_event_result
                           (VObj [("eventId", VStr "abc123")])
                           calendar_not_found [] eq_refl))
                 (Error "Not Found")).
    reflexivity.
  - apply (proj1 (delete_event_result (VObj [("eventId", VStr "abc123")])
                    calendar_creating [] eq_refl)
                 (VObj [("data", VStr "")]) "abc123");
      reflexivity.
  - apply (proj1 (proj2 (delete_event_result unprintable_id_args
                           calendar_creating [] eq_refl))
                 (VObj [("data", VStr "")]));
      reflexivity.
Defined.

(** *** list_events *)

Lemma handleListEvents_run env args calendar log :
  handleListEvents env args calendar log
    = (Return
         match events_list calendar (list_request env args) with
         | Return response =>
             match outcome (projected response) with
             | Return events => text_result (JSON_stringify events)
             | Throw e =>
                 error_result ("Error fetching calendar events: " ++ message e)
             end
         | Throw e =>
             error_result ("Error fetching calendar events: " ++ message e)
         end,
       log ++ [(EventsList, list_request env args)])%list.
Proof.
  unfold handleListEvents, try_catch, bind, await.
  destruct (events_list calendar (list_request env args)) as [response | e].
  - rewrite (pure_projected response).
    destruct (outcome (projected response)); reflexivity.
  - reflexivity.
Qed.

(** C6. Every list_events call makes one [calendar.events.list] call.
    In its parameter object [maxResults] is 10 when the argument is
    absent, [timeMin] is the current instant when the argument is
    absent, and [timeMax] is [undefined] when the argument is absent. *)
Theorem list_events_defaults :
  forall env args calendar log,
  exists r request,
    handleListEvents env args calendar log
      = (Return r, log ++ [(EventsList, request)])%list
    /\ (opt_prop args "maxResults" = VUndefined ->
        prop request "maxResults" = VNum 10)
    /\ (opt_prop args "timeMin" = VUndefined ->
        prop request "timeMin" = VStr (now env))
    /\ (opt_prop args "timeMax" = VUndefined ->
        prop request "timeMax" = VUndefined).
Proof.
  intros env args calendar log.
  eexists; exists (list_request env args).
  split; [apply handleListEvents_run |].
  unfold list_request; simpl.
  repeat split; intro H; rewrite H; reflexivity.
Qed.

Lemma list_events_defaults_witness :
  exists r request,
    handleListEvents env_2024 VUndefined calendar_not_found []
      = (Return r, [(EventsList, request)])
    /\ prop request "maxResults" = VNum 10
    /\ prop request "timeMin" = VStr "2024-01-01T00:00:00.000Z"
    /\ prop request "timeMax" = VUndefined.
Proof.
  destruct (list_events_defaults env_2024 VUndefined calendar_not_found [])
    as (r & request & Hrun & Hmax & Hmin & Htmax).
  exists r, request.
  split; [exact Hrun |].
  split; [apply Hmax; reflexivity |].
  split; [apply Hmin; reflexivity | apply Htmax; reflexivity].
Defined.

(** C9. The defaults of list_events test truthiness: whenever the
    [maxResults] argument is falsy (0 included) the parameter object
    carries 10, and whenever the [timeMin] argument is falsy (the empty
    string included) it carries the current instant. The [maxResults]
    sent is therefore never falsy, and the [timeMin] sent is the caller's
    truthy value or the current instant. *)
Theorem list_events_defaults_by_truthiness :
  forall env args calendar log,
  exists r request,
    handleListEvents env args calendar log
      = (Return r, log ++ [(EventsList, request)])%list
    /\ (truthy (opt_prop args "maxResults") = false ->
        prop request "maxResults" = VNum 10)
    /\ (truthy (opt_prop args "timeMin") = false ->
        prop request "timeMin" = VStr (now env))
    /\ truthy (prop request "maxResults") = true
    /\ (truthy (prop request "timeMin") = true
        \/ prop request "timeMin" = VStr (now env)).
Proof.
  intros env args calendar log.
  eexists; exists (list_request env args).
  split; [apply handleListEvents_run |].
  unfold list_request, or_else; simpl.
  repeat split.
  - intro H; rewrite H; reflexivity.
  - intro H; rewrite H; reflexivity.
  - destruct (truthy (opt_prop args "maxResults")) eqn:H; [exact H | reflexivity].
  - destruct (truthy (opt_prop args "timeMin")) eqn:H; [left; exact H | right; reflexivity].
Qed.

Lemma list_events_defaults_by_truthiness_witness :
  exists r request,
    handleListEvents env_2024
        (VObj [("maxResults", VNum 0); ("timeMin", VStr "")])
        calendar_not_found []
      = (Return r, [(EventsList, request)])
    /\ prop request "maxResults" = VNum 10
    /\ prop request "timeMin" = VStr "2024-01-01T00:00:00.000Z".
Proof.
  destruct (list_events_defaults_by_truthiness env_2024
              (VObj [("maxResults", VNum 0); ("timeMin", VStr "")])
              calendar_not_found [])
    as (r & request & Hrun & Hmax & Hmin & _).
  exists r, request.
  split; [exact Hrun |].
  split; [apply Hmax; reflexivity | apply Hmin; reflexivity].
Defined.

(** C10. When the provider answers a list_events call with a response
    whose [data] has no [items] (absent or [null]), the handler returns
    a result without [isError] whose single text item has the text
    [undefined], not a string. *)
Theorem list_events_without_items :
  forall env args calendar log response,
    events_list calendar (list_request env args) = Return response ->
    nullish response = false ->
    nullish (prop response "data") = false ->
    nullish (prop (prop response "data") "items") = true ->
    handleListEvents env args calendar log
      = (Return {| content := [ {| type := "text"; text := VUndefined |} ];
                   isError := None |},
         log ++ [(EventsList, list_request env args)])%list.
Proof.
  intros env args calendar log response Hresp Hr Hdata Hitems.
  rewrite handleListEvents_run, Hresp.
  unfold outcome, projected, bind, get, opt_call_map.
  rewrite Hr. simpl. rewrite Hdata. simpl. rewrite Hitems. reflexivity.
Qed.

Lemma list_events_without_items_witness :
  handleListEvents env_2024 (VObj []) calendar_no_items []
    = (Return {| content := [ {| type := "text"; text := VUndefined |} ];
                 isError := None |},
       [(EventsList, list_request env_2024 (VObj []))]).
Proof.
  apply (list_events_without_items env_2024 (VObj []) calendar_no_items []
           (VObj [("data", VObj [("kind", VStr "calendar#events")])]));
    reflexivity.
Defined.

Lemma project_defined event :
  nullish event = false ->
  forall log, project event log = (Return (projection event), log).
Proof.
  intros H log. unfold project, bind, get. rewrite H. reflexivity.
Qed.

Lemma projected_items response items :
  nullish response = false ->
  nullish (prop response "data") = false ->
  prop (prop response "data") "items" = VArr items ->
  Forall (fun event => nullish event = false) items ->
  outcome (projected response) = Return (VArr (map projection items)).
Proof.
  intros Hr Hdata Hitems Hall.
  unfold outcome, projected, bind, get.
  rewrite Hr. simpl. rewrite Hdata. simpl. rewrite Hitems.
  unfold opt_call_map, call_map, bind. simpl.
  rewrite (mapM_total project projection).
  - reflexivity.
  - eapply Forall_impl; [| exact Hall].
    intros event Hevent. now apply project_defined.
Qed.

(** With [maxResults = 1] and a provider that returns two events, the
    handler's text is the serialization of two projected events. *)
Example list_events_two_for_one :
  handleListEvents env_2024 (VObj [("maxResults", VNum 1)])
      calendar_two_events []
    = (Return (text_result (JSON_stringify (VArr (map projection two_events)))),
       [(EventsList,
         VObj [("calendarId", VStr "primary");
               ("timeMin", VStr "2024-01-01T00:00:00.000Z");
               ("timeMax", VUndefined);
               ("maxResults", VNum 1);
               ("singleEvents", VBool true);
               ("orderBy", VStr "startTime")])]).
Proof. reflexivity. Qed.

(** With [maxResults = 0] the request asks for 10 events, and a provider
    that returns two of them honours it; the handler's list has two. *)
Example list_events_two_for_zero :
  handleListEvents env_2024 (VObj [("maxResults", VNum 0)])
      calendar_two_events []
    = (Return (text_result (JSON_stringify (VArr (map projection two_events)))),
       [(EventsList,
         VObj [("calendarId", VStr "primary");
               ("timeMin", VStr "2024-01-01T00:00:00.000Z");
               ("timeMax", VUndefined);
               ("maxResults", VNum 10);
               ("singleEvents", VBool true);
               ("orderBy", VStr "startTime")])]).
Proof. reflexivity. Qed.

(** C5, as stated, fails: the handler does not truncate what the
    provider returns. *)
Lemma list_events_not_capped : ~ projection_capped.
Proof.
  intro H.
  specialize (H env_2024 (VObj [("maxResults", VNum 1)]) calendar_two_events
                1%Z _ (map projection two_events) eq_refl eq_refl eq_refl).
  simpl in H. lia.
Qed.

(** C5, amended. Every list_events call makes one
    [calendar.events.list] call on calendar "primary" with
    [singleEvents = true] and [orderBy = "startTime"], carrying the
    caller's [maxResults] when it is truthy and 10 otherwise. When the provider answers
    with an array of events, the result's text serializes the list that
    has, for each returned event and in the same order, the object with
    exactly the keys id, summary, start, end, location and the event's
    values for them. That list is as long as the provider's: it has at
    most [n] items whenever the provider returned at most [n]. *)
Theorem list_events_request_and_projection :
  forall env args calendar log,
  exists r request,
    handleListEvents env args calendar log
      = (Return r, log ++ [(EventsList, request)])%list
    /\ prop request "calendarId" = VStr "primary"
    /\ prop request "singleEvents" = VBool true
    /\ prop request "orderBy" = VStr "startTime"
    /\ prop request "maxResults"
       = (if truthy (opt_prop args "maxResults")
          then opt_prop args "maxResults"
          else VNum 10)
    /\ forall response items,
         events_list calendar request = Return response ->
         nullish response = false ->
         nullish (prop response "data") = false ->
         prop (prop response "data") "items" = VArr items ->
         Forall (fun event => nullish event = false) items ->
         exists events,
           r = {| content :=
                    [ {| type := "text";
                         text := JSON_stringify (VArr events) |} ];
                  isError := None |}
           /\ List.length events = List.length items
           /\ (forall n, List.length items <= n -> List.length events <= n)
           /\ Forall2 (fun event out =>
                         exists props,
                           out = VObj props
                           /\ keys props = projected_fields
                           /\ forall k, In k projected_fields ->
                                        lookup k props = Some (prop event k))
                      items events.
Proof.
  intros env args calendar log.
  eexists; exists (list_request env args).
  split; [apply handleListEvents_run |].
  do 4 (split; [reflexivity |]).
  intros response items Hresp Hr Hdata Hitems Hall.
  exists (map projection items).
  rewrite Hresp, (projected_items response items Hr Hdata Hitems Hall).
  split; [reflexivity |].
  split; [apply length_map |].
  split; [intros n Hn; now rewrite length_map |].
  clear. induction items as [| event rest IH]; constructor; [| exact IH].
  eexists. split; [reflexivity |]. split; [reflexivity |].
  intros k Hk. simpl in Hk.
  repeat (destruct Hk as [<- | Hk]; [reflexivity |]). destruct Hk.
Qed.

Lemma list_events_request_and_projection_witness :
  exists r events,
    handleListEvents env_2024 (VObj [("maxResults", VNum 5)])
        calendar_two_events []
      = (Return r,
         [(EventsList, list_request env_2024 (VObj [("maxResults", VNum 5)]))])
    /\ r = text_result (JSON_stringify (VArr events))
    /\ List.length events <= 5.
Proof.
  destruct (list_events_request_and_projection env_2024
              (VObj [("maxResults", VNum 5)]) calendar_two_events [])
    as (r & request & Hrun & _ & _ & _ & _ & Hproj).
  assert (Hreq : request = list_request env_2024 (VObj [("maxResults", VNum 5)])).
  { rewrite handleListEvents_run in Hrun. now inversion Hrun. }
  subst request.
  destruct (Hproj (VObj [("data", VObj [("items", VArr two_events)])]) two_events)
    as (events & Hr & _ & Hcap & _);
    try reflexivity.
  { repeat constructor. }
  exists r, events.
  split; [exact Hrun |].
  split; [exact Hr |].
  apply Hcap. simpl. lia.
Defined.

(** *** create_event *)

Lemma call_map_attendee_array elems log :
  call_map (VArr elems) "attendees.map" attendee log
    = (Return (VArr (map attendee_object elems)), log).
Proof.
  unfold call_map, bind.
  rewrite (mapM_total attendee attendee_object); [reflexivity |].
  apply Forall_forall. intros email _ log'. reflexivity.
Qed.

Lemma call_map_attendee_other recv log :
  is_array recv = false ->
  exists e, call_map recv "attendees.map" attendee log = (Throw e, log).
Proof.
  destruct recv; simpl; intro H; try discriminate H; eexists; reflexivity.
Qed.

Lemma handleCreateEvent_run env args calendar log attendees :
  nullish args = false ->
  default_to (prop args "attendees") (VArr []) = VArr attendees ->
  handleCreateEvent env args calendar log
    = (Return
         match events_insert calendar (insert_request env args attendees) with
         | Return response =>
             match outcome (response_id response) with
             | Return id =>
                 confirmation "Event created successfully. Event ID: "
                              "Error creating event: " id
             | Throw e => error_result ("Error creating event: " ++ message e)
             end
         | Throw e => error_result ("Error creating event: " ++ message e)
         end,
       log ++ [(EventsInsert, insert_request env args attendees)])%list.
Proof.
  intros Hargs Hatt.
  unfold handleCreateEvent, try_catch, bind, destructurable, await.
  rewrite Hargs. simpl. rewrite Hatt, call_map_attendee_array.
  fold (attendee_object). fold (insert_request env args attendees).
  destruct (events_insert calendar (insert_request env args attendees))
    as [response | e]; [| reflexivity].
  rewrite (pure_response_id response).
  destruct (outcome (response_id response)) as [id | e]; [| reflexivity].
  unfold confirmation, template. destruct (to_string id); reflexivity.
Qed.

Lemma handleCreateEvent_early env args calendar log :
  nullish args = true
  \/ is_array (default_to (prop args "attendees") (VArr [])) = false ->
  exists msg,
    handleCreateEvent env args calendar log
      = (Return (error_result ("Error creating event: " ++ msg)), log).
Proof.
  unfold handleCreateEvent, try_catch, bind, destructurable.
  destruct (nullish args) eqn:Hargs; simpl.
  - intros _. eexists. reflexivity.
  - intros [H | H]; [discriminate H |].
    destruct (call_map_attendee_other _ log H) as [e He].
    rewrite He. eexists. reflexivity.
Qed.





(** *** update_event *)

(** The chain of guarded assignments builds the patch described above. *)
Lemma guarded_assignments env args :
  set_if (prop args "end") "end" (endpoint env (prop args "end"))
    (set_if (prop args "start") "start" (endpoint env (prop args "start"))
       (set_if (prop args "description") "description" (prop args "description")
          (set_if (prop args "location") "location" (prop args "location")
             (set_if (prop args "summary") "summary" (prop args "summary") []))))
  = sparse (fun k => truthy (prop args k)) (patch_value env args)
           ["summary"; "location"; "description"; "start"; "end"].
Proof.
  unfold sparse, flat_map, set_if, patch_value.
  destruct (truthy (prop args "summary")),
           (truthy (prop args "location")),
           (truthy (prop args "description")),
           (truthy (prop args "start")),
           (truthy (prop args "end")); reflexivity.
Qed.

Lemma set_prop_fresh k v props :
  ~ In k (keys props) -> set_prop k v props = (props ++ [(k, v)])%list.
Proof.
  induction props as [| [k' v'] rest IH]; simpl; intro H.
  - reflexivity.
  - destruct (k' =? k) eqn:E.
    + apply String.eqb_eq in E. tauto.
    + rewrite IH; [reflexivity | tauto].
Qed.

Lemma keys_flat_map_subset (f : string -> value) (g : string -> bool) l k :
  In k (keys (flat_map (fun k => if g k then [(k, f k)] else []) l)) ->
  In k l.
Proof.
  induction l as [| x rest IH]; simpl; [tauto |].
  unfold keys in *. rewrite map_app, in_app_iff.
  intros [H | H]; [| right; now apply IH].
  destruct (g x); simpl in H; [| tauto].
  destruct H as [H | []]. now left.
Qed.

Lemma handleUpdateEvent_run env args calendar log :
  nullish args = false ->
  truthy (prop args "attendees") = false
  \/ is_array (prop args "attendees") = true ->
  let request := patch_request args (sparse_patch env args) in
  handleUpdateEvent env args calendar log
    = (Return
         match events_patch calendar request with
         | Return response =>
             match outcome (response_id response) with
             | Return id =>
                 confirmation "Event updated successfully. Event ID: "
                              "Error updating event: " id
             | Throw e => error_result ("Error updating event: " ++ message e)
             end
         | Throw e => error_result ("Error updating event: " ++ message e)
         end,
       log ++ [(EventsPatch, request)])%list.
Proof.
  intros Hargs Hatt request.
  unfold handleUpdateEvent, try_catch, destructurable.
  cbv zeta. rewrite guarded_assignments.
  set (scalars := sparse _ _ _).
  assert (Hsplit : sparse_patch env args
                   = (scalars ++ (if truthy (prop args "attendees")
                                  then [("attendees", patch_value env args "attendees")]
                                  else []))%list).
  { unfold sparse_patch, patch_fields, scalars, sparse.
    change ["summary"; "location"; "description"; "start"; "end"; "attendees"]
      with (["summary"; "location"; "description"; "start"; "end"] ++ ["attendees"])%list.
    rewrite flat_map_app. f_equal. cbn [flat_map]. apply app_nil_r. }
  assert (Hfresh : ~ In "attendees" (keys scalars)).
  { intro H. unfold scalars, sparse in H.
    apply keys_flat_map_subset in H. simpl in H.
    repeat (destruct H as [H | H]; [discriminate H |]). exact H. }
  unfold bind at 1 2. rewrite Hargs.
  change ((ret tt : M unit) log) with (Return tt, log). cbv iota beta.
  assert (Hbody :
    (if truthy (prop args "attendees")
     then bind (call_map (prop args "attendees") "attendees.map" attendee)
               (fun mapped => ret (set_prop "attendees" mapped scalars))
     else ret scalars) log
    = (Return (sparse_patch env args), log)).
  { rewrite Hsplit. destruct Hatt as [Hf | Ha].
    - rewrite Hf. now rewrite app_nil_r.
    - destruct (prop args "attendees") as [| | | | | | elems |] eqn:Hval;
        try discriminate Ha.
      change (truthy (VArr elems)) with true. cbv iota.
      unfold bind. rewrite call_map_attendee_array.
      unfold ret. rewrite (set_prop_fresh _ _ _ Hfresh).
      unfold patch_value. simpl. rewrite Hval. reflexivity. }
  rewrite Hbody.
  unfold bind, await. fold (patch_request args (sparse_patch env args)).
  fold request.
  destruct (events_patch calendar request) as [response | e]; [| reflexivity].
  rewrite (pure_response_id response).
  destruct (outcome (response_id response)) as [id | e]; [| reflexivity].
  unfold confirmation, template. destruct (to_string id); reflexivity.
Qed.

Lemma handleUpdateEvent_early env args calendar log :
  nullish args = true
  \/ (truthy (prop args "attendees") = true
      /\ is_array (prop args "attendees") = false) ->
  exists msg,
    handleUpdateEvent env args calendar log
      = (Return (error_result ("Error updating event: " ++ msg)), log).
Proof.
  unfold handleUpdateEvent, try_catch, destructurable.
  unfold bind at 1 2.
  destruct (nullish args) eqn:Hargs; simpl.
  - intros _. eexists. reflexivity.
  - intros [H | [Ht Ha]]; [discriminate H |].
    rewrite Ht. unfold bind.
    destruct (call_map_attendee_other _ log Ha) as [e He].
    rewrite He. eexists. reflexivity.
Qed.

Section SparseObjects.

Variable include : string -> bool.
Variable entry : string -> value.

Lemma keys_sparse ks : keys (sparse include entry ks) = filter include ks.
Proof.
  induction ks as [| k rest IH]; simpl; [reflexivity |].
  unfold keys in *. rewrite map_app, IH.
  destruct (include k); reflexivity.
Qed.

Lemma lookup_sparse_excluded ks k :
  include k = false -> lookup k (sparse include entry ks) = None.
Proof.
  intro Hk. induction ks as [| k' rest IH]; simpl; [reflexivity |].
  destruct (include k') eqn:Hk'; simpl; [| exact IH].
  destruct (k' =? k) eqn:E; [| exact IH].
  apply String.eqb_eq in E. congruence.
Qed.

Lemma lookup_sparse_included ks k :
  In k (keys (sparse include entry ks)) -> lookup k (sparse include entry ks) = Some (entry k).
Proof.
  induction ks as [| k' rest IH]; simpl; [tauto |].
  unfold keys in *. rewrite map_app, in_app_iff.
  destruct (include k') eqn:Hk'; simpl.
  - destruct (k' =? k) eqn:E.
    + apply String.eqb_eq in E. now subst.
    + apply String.eqb_neq in E. intros [[H | []] | H]; [contradiction | now apply IH].
  - intros [[] | H]. now apply IH.
Qed.

End SparseObjects.

Lemma lookup_in_keys k props v :
  lookup k props = Some v -> In k (keys props).
Proof.
  induction props as [| [k' v'] rest IH]; simpl; [discriminate |].
  destruct (k' =? k) eqn:E.
  - apply String.eqb_eq in E. now left.
  - intro H. right. now apply IH.
Qed.

Lemma sparse_patch_sent env args k v :
  lookup k (sparse_patch env args) = Some v ->
  In k patch_fields
  /\ truthy (prop args k) = true
  /\ v = patch_value env args k.
Proof.
  intro H. pose proof (lookup_in_keys _ _ _ H) as Hk.
  unfold sparse_patch in *.
  rewrite (lookup_sparse_included _ _ _ _ Hk) in H.
  rewrite keys_sparse in Hk. apply filter_In in Hk.
  destruct Hk as [Hin Ht]. repeat split; [exact Hin | exact Ht | congruence].
Qed.

Lemma sparse_patch_no_empty_string env args k v :
  lookup k (sparse_patch env args) = Some v -> v <> VStr "".
Proof.
  intro H. destruct (sparse_patch_sent env args k v H) as (Hin & Ht & ->).
  simpl in Hin.
  destruct Hin as [<- | [<- | [<- | [<- | [<- | [<- | []]]]]]];
    unfold patch_value; simpl; try discriminate;
    try (intro Heq; rewrite Heq in Ht; discriminate Ht).
  destruct (prop args "attendees"); try discriminate.
  intro Heq. inversion Heq; subst. discriminate Ht.
Qed.

Lemma sparse_patch_empty_attendees env args :
  prop args "attendees" = VArr [] ->
  lookup "attendees" (sparse_patch env args) = Some (VArr []).
Proof.
  intro Hatt. unfold sparse_patch. rewrite lookup_sparse_included.
  - unfold patch_value. simpl. now rewrite Hatt.
  - rewrite keys_sparse. apply filter_In. split.
    + simpl. tauto.
    + now rewrite Hatt.
Qed.

(** Given an empty list of attendees, update_event sends it. *)
Example update_event_empty_attendees :
  forall env calendar,
  exists r,
    handleUpdateEvent env clear_attendees_args calendar []
      = (Return r,
         [(EventsPatch,
           VObj [("calendarId", VStr "primary");
                 ("eventId", VStr "abc123");
                 ("requestBody", VObj [("attendees", VArr [])])])]).
Proof.
  intros env calendar. eexists.
  apply (handleUpdateEvent_run env clear_attendees_args calendar []
           eq_refl (or_intror eq_refl)).
Qed.

(** C3, as stated, fails in its conclusion: an empty list of attendees
    is truthy and is sent, which empties the attendees. *)
Lemma update_event_can_clear_attendees : ~ no_field_cleared.
Proof.
  intro H.
  destruct (update_event_empty_attendees env_2024 calendar_creating)
    as [r Hrun].
  destruct (H env_2024 clear_attendees_args calendar_creating [] (Return r)
              _ _ [("attendees", VArr [])] "attendees" (VArr [])
              Hrun (or_introl eq_refl) eq_refl eq_refl)
    as [_ Hne].
  now apply Hne.
Qed.

(** C3, amended. Every update_event call returns a result and makes at
    most one client call, a patch on calendar "primary" for the caller's
    [eventId]. The patch object sent has exactly the keys, among
    summary, location, description, start, end and attendees, whose
    argument is truthy: a field whose argument is falsy (absent, or the
    empty string) has no key in it, and a field that is included carries
    its value for the patch. So no field of a patch is the empty string:
    a text field cannot be cleared. An empty list of attendees, however,
    is truthy and is sent as it is: the attendees can be cleared. The
    call is made whenever the arguments are an object whose [attendees]
    is falsy or a list. *)
Theorem update_event_patch :
  forall env args calendar log,
  exists r calls,
    handleUpdateEvent env args calendar log = (Return r, log ++ calls)%list
    /\ (forall op request,
          In (op, request) calls ->
          exists body,
            op = EventsPatch
            /\ request = VObj [("calendarId", VStr "primary");
                               ("eventId", prop args "eventId");
                               ("requestBody", VObj body)]
            /\ keys body = filter (fun k => truthy (prop args k)) patch_fields
            /\ (forall k, truthy (prop args k) = false -> lookup k body = None)
            /\ (forall k, In k (keys body) ->
                          lookup k body = Some (patch_value env args k))
            /\ (forall k v, lookup k body = Some v -> v <> VStr "")
            /\ (prop args "attendees" = VArr [] ->
                lookup "attendees" body = Some (VArr [])))
    /\ (nullish args = false ->
        truthy (prop args "attendees") = false
        \/ is_array (prop args "attendees") = true ->
        List.length calls = 1).
Proof.
  intros env args calendar log.
  assert (Hearly :
    nullish args = true
    \/ (truthy (prop args "attendees") = true
        /\ is_array (prop args "attendees") = false) ->
    exists r calls,
      handleUpdateEvent env args calendar log = (Return r, log ++ calls)%list
      /\ calls = []).
  { intro H. destruct (handleUpdateEvent_early env args calendar log H) as [msg Hmsg].
    eexists; exists []. rewrite app_nil_r. split; [exact Hmsg | reflexivity]. }
  destruct (nullish args) eqn:Hargs;
    [| destruct (truthy (prop args "attendees")) eqn:Ht;
       [destruct (is_array (prop args "attendees")) eqn:Ha |]].
  1, 3: (destruct Hearly as (r & calls & Hrun & ->); [tauto |];
         exists r, []; split; [exact Hrun |]; split;
         [intros op request [] | intros; try discriminate;
                                 intuition discriminate]).
  all: (eexists; eexists; split;
        [apply (handleUpdateEvent_run env args calendar log Hargs); tauto |];
        split; [| reflexivity]).
  all: (intros op request [Heq | []]; inversion Heq; subst;
        exists (sparse_patch env args);
        split; [reflexivity |]; split; [reflexivity |];
        split; [apply keys_sparse |];
        split; [intros k Hk; now apply lookup_sparse_excluded |];
        split; [intros k Hk; now apply lookup_sparse_included |];
        split; [intros k v Hk; now apply (sparse_patch_no_empty_string env args k)
               | apply sparse_patch_empty_attendees]).
Qed.

(** With only [summary] given, the patch is exactly [{summary}]. *)
Example update_event_summary_only :
  forall env calendar,
  exists r,
    handleUpdateEvent env
        (VObj [("eventId", VStr "abc123"); ("summary", VStr "New Title")])
        calendar []
      = (Return r,
         [(EventsPatch,
           VObj [("calendarId", VStr "primary");
                 ("eventId", VStr "abc123");
                 ("requestBody", VObj [("summary", VStr "New Title")])])]).
Proof.
  intros env calendar. eexists.
  apply (handleUpdateEvent_run env
           (VObj [("eventId", VStr "abc123"); ("summary", VStr "New Title")])
           calendar [] eq_refl (or_introl eq_refl)).
Qed.

(** An empty [description] does not reach the patch. *)
Example update_event_empty_description :
  forall env calendar,
  exists r,
    handleUpdateEvent env
        (VObj [("eventId", VStr "abc123"); ("summary", VStr "New Title");
               ("description", VStr "")])
        calendar []
      = (Return r,
         [(EventsPatch,
           VObj [("calendarId", VStr "primary");
                 ("eventId", VStr "abc123");
                 ("requestBody", VObj [("summary", VStr "New Title")])])]).
Proof.
  intros env calendar. eexists.
  apply (handleUpdateEvent_run env
           (VObj [("eventId", VStr "abc123"); ("summary", VStr "New Title");
                  ("description", VStr "")])
           calendar [] eq_refl (or_introl eq_refl)).
Qed.

Lemma update_event_patch_witness :
  exists r body,
    handleUpdateEvent env_2024 clear_attendees_args calendar_creating []
      = (Return r,
         [(EventsPatch,
           VObj [("calendarId", VStr "primary");
                 ("eventId", VStr "abc123");
                 ("requestBody", VObj body)])])
    /\ keys body = ["attendees"]
    /\ lookup "attendees" body = Some (VArr [])
    /\ lookup "description" body = None.
Proof.
  destruct (update_event_patch env_2024 clear_attendees_args
              calendar_creating [])
    as (r & calls & Hrun & Hsent & Hmade).
  specialize (Hmade eq_refl (or_intror eq_refl)).
  destruct calls as [| [op request] [| second rest]]; try discriminate Hmade.
  destruct (Hsent op request (or_introl eq_refl))
    as (body & -> & -> & Hkeys & Hout & _ & _ & Hcleared).
  exists r, body.
  split; [exact Hrun |].
  split; [exact Hkeys |].
  split; [apply Hcleared; reflexivity | apply Hout; reflexivity].
Defined.

(** *** Failures never leave a handler *)

Lemma attempts_without_call calendar tool m :
  (forall log,
      exists msg,
        m log = (Return (error_result (failure_label tool ++ msg)), log)) ->
  attempts calendar tool false m.
Proof.
  intros H log. destruct (H log) as [msg Hmsg].
  eexists; exists []. rewrite app_nil_r.
  split; [exact Hmsg |].
  split; [discriminate |].
  split; [intros _; split; [reflexivity | now exists msg] |].
  intros op request e [].
Qed.

Lemma handleListEvents_attempts env args calendar :
  attempts calendar "list_events" (usable "list_events" args)
           (handleListEvents env args calendar).
Proof. attempt_one_call handleListEvents_run. Qed.

Lemma handleDeleteEvent_attempts args calendar :
  attempts calendar "delete_event" (usable "delete_event" args)
           (handleDeleteEvent args calendar).
Proof.
  change (usable "delete_event" args) with (negb (nullish args)).
  destruct (nullish args) eqn:Hargs.
  - apply attempts_without_call. intro log. eexists.
    now apply handleDeleteEvent_no_args.
  - attempt_one_call (fun log => handleDeleteEvent_run args calendar log Hargs).
Qed.

Lemma handleCreateEvent_attempts env args calendar :
  attempts calendar "create_event" (usable "create_event" args)
           (handleCreateEvent env args calendar).
Proof.
  change (usable "create_event" args)
    with (negb (nullish args)
          && is_array (default_to (prop args "attendees") (VArr []))).
  destruct (nullish args) eqn:Hargs.
  - apply attempts_without_call. intro log.
    apply handleCreateEvent_early. now left.
  - destruct (is_array (default_to (prop args "attendees") (VArr []))) eqn:Ha.
    + destruct (default_to (prop args "attendees") (VArr [])) eqn:Hatt;
        try discriminate Ha.
      attempt_one_call
        (fun log => handleCreateEvent_run env args calendar log elems Hargs Hatt).
    + apply attempts_without_call. intro log.
      apply handleCreateEvent_early. now right.
Qed.

Lemma handleUpdateEvent_attempts env args calendar :
  attempts calendar "update_event" (usable "update_event" args)
           (handleUpdateEvent env args calendar).
Proof.
  change (usable "update_event" args)
    with (negb (nullish args)
          && (negb (truthy (prop args "attendees"))
              || is_array (prop args "attendees"))).
  destruct (nullish args) eqn:Hargs;
    [| destruct (truthy (prop args "attendees")) eqn:Ht;
       [destruct (is_array (prop args "attendees")) eqn:Ha |]].
  1, 3: (apply attempts_without_call; intro log;
         apply handleUpdateEvent_early; tauto).
  - attempt_one_call
      (fun log => handleUpdateEvent_run env args calendar log Hargs
                    (or_intror Ha)).
  - attempt_one_call
      (fun log => handleUpdateEvent_run env args calendar log Hargs
                    (or_introl Ht)).
Qed.

(** Without an argument object create_event makes no client call. *)
Example create_event_without_arguments :
  dispatch env_2024 calendar_creating
      {| params_name := "create_event"; params_arguments := VUndefined |} []
    = (Return (error_result
                 "Error creating event: Cannot destructure property 'summary' of 'args' as it is undefined."),
       []).
Proof. reflexivity. Qed.

(** C2, as stated, fails in its conclusion: a tool call whose arguments
    the handler cannot use is answered without any client call. *)
Lemma tool_call_without_client_call : ~ one_client_call_per_tool_call.
Proof.
  intro H.
  destruct (H env_2024 calendar_creating
              {| params_name := "create_event";
                 params_arguments := VUndefined |} [])
    as (r & call & Hrun).
  - simpl. tauto.
  - rewrite create_event_without_arguments in Hrun. discriminate Hrun.
Qed.

(** C2, amended. A call to any of the four registered tools, with any
    arguments and any Calendar Client, makes the dispatcher return one
    [ToolResult]: no exception leaves the handler. When the handler can
    use the arguments it calls the client exactly once, with its own
    operation on calendar "primary", and never again (no retry); when it
    cannot, it makes no call and the result is an [isError] result under
    the tool's label. When the call fails the result has
    [isError = true] and a single text item, the tool's failure label
    followed by the failure's message. *)
Theorem handlers_convert_failures :
  forall env calendar params log,
    In (params_name params) tool_names ->
    exists r calls,
      dispatch env calendar params log = (Return r, log ++ calls)%list
      /\ (usable (params_name params) (params_arguments params) = true ->
          exists request,
            calls = [(tool_op (params_name params), request)]
            /\ prop request "calendarId" = VStr "primary")
      /\ (usable (params_name params) (params_arguments params) = false ->
          calls = []
          /\ exists msg,
               r = {| content :=
                        [ {| type := "text";
                             text := VStr (failure_label (params_name params)
                                             ++ msg) |} ];
                      isError := Some true |})
      /\ forall op request e,
           In (op, request) calls ->
           client calendar op request = Throw e ->
           r = {| content :=
                    [ {| type := "text";
                         text := VStr (failure_label (params_name params)
                                         ++ message e) |} ];
                  isError := Some true |}.
Proof.
  intros env calendar [tool args] log Hname. simpl in Hname.
  unfold dispatch, dispatch_on. cbn [params_name params_arguments].
  destruct Hname as [<- | [<- | [<- | [<- | []]]]]; cbn -[handleListEvents
    handleCreateEvent handleUpdateEvent handleDeleteEvent usable tool_op
    failure_label].
  - apply handleListEvents_attempts.
  - apply handleCreateEvent_attempts.
  - apply handleUpdateEvent_attempts.
  - apply handleDeleteEvent_attempts.
Qed.

Lemma handlers_convert_failures_witness :
  dispatch env_2024 calendar_not_found
      {| params_name := "create_event"; params_arguments := create_test_args |}
      []
    = (Return (error_result "Error creating event: Not Found"),
       [(EventsInsert, insert_request env_2024 create_test_args [])]).
Proof.
  destruct (handlers_convert_failures env_2024 calendar_not_found
              {| params_name := "create_event";
                 params_arguments := create_test_args |} [])
    as (r & calls & Hrun & Hone & _ & Hfail).
  - simpl. auto.
  - destruct (Hone eq_refl) as (request & Hcalls & _).
    assert (Hreq : request = insert_request env_2024 create_test_args []).
    { subst calls.
      change (dispatch env_2024 calendar_not_found _ [])
        with (handleCreateEvent env_2024 create_test_args calendar_not_found [])
        in Hrun.
      rewrite (handleCreateEvent_run env_2024 create_test_args calendar_not_found
                 [] [] eq_refl eq_refl) in Hrun.
      now inversion Hrun. }
    subst calls request. rewrite Hrun.
    rewrite (Hfail EventsInsert _ (Error "Not Found") (or_introl eq_refl) eq_refl).
    reflexivity.
Defined.

(* ===================================================================== *)
(** ** Further properties of the handlers *)
(* ===================================================================== *)

(** *** Arguments the handlers cannot use *)

(** X1. Called without an argument object ([undefined] or [null]),
    create_event, update_event and delete_event each return an
    [isError] result under their own label and make no client call: the
    destructuring of [args] fails inside the [try]. *)
Theorem missing_arguments_fail_before_the_call :
  forall env args calendar log,
    nullish args = true ->
    (exists msg,
        handleCreateEvent env args calendar log
          = (Return (error_result ("Error creating event: " ++ msg)), log))
    /\ (exists msg,
        handleUpdateEvent env args calendar log
          = (Return (error_result ("Error updating event: " ++ msg)), log))
    /\ (exists msg,
        handleDeleteEvent args calendar log
          = (Return (error_result ("Error deleting event: " ++ msg)), log)).
Proof.
  intros env args calendar log Hargs.
  split; [| split].
  - apply handleCreateEvent_early. now left.
  - apply handleUpdateEvent_early. now left.
  - eexists. now apply handleDeleteEvent_no_args.
Qed.

Lemma missing_arguments_fail_before_the_call_witness :
  exists msg,
    handleDeleteEvent VUndefined calendar_creating []
      = (Return (error_result ("Error deleting event: " ++ msg)), []).
Proof.
  exact (proj2 (proj2 (missing_arguments_fail_before_the_call
                         env_2024 VUndefined calendar_creating [] eq_refl))).
Defined.

(** X2. create_event defaults [attendees] only when it is [undefined].
    Given [null], or any value that is not a list, the handler returns
    an [isError] result and inserts nothing; for a value other than
    [null] the text is "Error creating event: attendees.map is not a
    function". *)
Theorem create_event_attendees_not_a_list :
  forall env args calendar log,
    nullish args = false ->
    prop args "attendees" <> VUndefined ->
    is_array (prop args "attendees") = false ->
    (exists msg,
        handleCreateEvent env args calendar log
          = (Return (error_result ("Error creating event: " ++ msg)), log))
    /\ (prop args "attendees" <> VNull ->
        handleCreateEvent env args calendar log
          = (Return (error_result
                       "Error creating event: attendees.map is not a function"),
             log)).
Proof.
  intros env args calendar log Hargs Hgiven Hshape.
  split.
  - apply handleCreateEvent_early. right.
    destruct (prop args "attendees"); try reflexivity; try discriminate Hshape.
    now elim Hgiven.
  - intro Hnull.
    unfold handleCreateEvent, try_catch, bind, destructurable.
    rewrite Hargs. simpl.
    destruct (prop args "attendees"); try reflexivity;
      try discriminate Hshape; congruence.
Qed.

Lemma create_event_attendees_not_a_list_witness :
  handleCreateEvent env_2024
      (VObj [("summary", VStr "Test"); ("attendees", VStr "ada@example.org")])
      calendar_creating []
    = (Return (error_result
                 "Error creating event: attendees.map is not a function"),
       []).
Proof.
  apply (proj2 (create_event_attendees_not_a_list env_2024
                  (VObj [("summary", VStr "Test");
                         ("attendees", VStr "ada@example.org")])
                  calendar_creating [] eq_refl
                  ltac:(discriminate) eq_refl)).
  discriminate.
Defined.

(** X3. update_event given a truthy [attendees] that is not a list
    returns "Error updating event: attendees.map is not a function" as
    an [isError] result and sends no patch, whatever the other fields
    are. *)
Theorem update_event_attendees_not_a_list :
  forall env args calendar log,
    nullish args = false ->
    truthy (prop args "attendees") = true ->
    is_array (prop args "attendees") = false ->
    handleUpdateEvent env args calendar log
      = (Return (error_result
                   "Error updating event: attendees.map is not a function"),
         log).
Proof.
  intros env args calendar log Hargs Ht Hshape.
  unfold handleUpdateEvent, try_catch, destructurable.
  unfold bind at 1 2. rewrite Hargs.
  change ((ret tt : M unit) log) with (Return tt, log). cbv iota beta zeta.
  rewrite Ht. unfold bind.
  destruct (prop args "attendees"); try reflexivity;
    try discriminate Hshape; discriminate Ht.
Qed.

Lemma update_event_attendees_not_a_list_witness :
  handleUpdateEvent env_2024
      (VObj [("eventId", VStr "abc123"); ("summary", VStr "New Title");
             ("attendees", VStr "ada@example.org")])
      calendar_creating []
    = (Return (error_result
                 "Error updating event: attendees.map is not a function"),
       []).
Proof.
  apply (update_event_attendees_not_a_list env_2024
           (VObj [("eventId", VStr "abc123"); ("summary", VStr "New Title");
                  ("attendees", VStr "ada@example.org")])
           calendar_creating [] eq_refl eq_refl eq_refl).
Defined.

(** *** What update_event sends *)

(** X4. Whenever update_event is given a list of attendees, the empty
    list included, the patch carries [attendees]: the list with each
    address wrapped in [{email}]. An empty list is truthy, so the
    attendees of an event, unlike its text fields, can be cleared. *)
Theorem update_event_sends_attendee_list :
  forall env args calendar log attendees,
    nullish args = false ->
    prop args "attendees" = VArr attendees ->
    exists r body,
      handleUpdateEvent env args calendar log
        = (Return r,
           log ++ [(EventsPatch,
                    VObj [("calendarId", VStr "primary");
                          ("eventId", prop args "eventId");
                          ("requestBody", VObj body)])])%list
      /\ lookup "attendees" body
         = Some (VArr (map (fun email => VObj [("email", email)]) attendees)).
Proof.
  intros env args calendar log attendees Hargs Hatt.
  eexists; exists (sparse_patch env args).
  split.
  - apply (handleUpdateEvent_run env args calendar log Hargs).
    right. now rewrite Hatt.
  - unfold sparse_patch. rewrite lookup_sparse_included.
    + unfold patch_value. simpl. now rewrite Hatt.
    + rewrite keys_sparse. apply filter_In. split.
      * simpl. tauto.
      * now rewrite Hatt.
Qed.

Lemma update_event_sends_attendee_list_witness :
  exists r body,
    handleUpdateEvent env_2024
        (VObj [("eventId", VStr "abc123"); ("attendees", VArr [])])
        calendar_creating []
      = (Return r,
         [(EventsPatch,
           VObj [("calendarId", VStr "primary");
                 ("eventId", VStr "abc123");
                 ("requestBody", VObj body)])])
    /\ lookup "attendees" body = Some (VArr []).
Proof.
  exact (update_event_sends_attendee_list env_2024
           (VObj [("eventId", VStr "abc123"); ("attendees", VArr [])])
           calendar_creating [] [] eq_refl eq_refl).
Defined.

(** X5. update_event with nothing to change (every field absent or
    falsy) still calls the provider, with the empty patch [{}]. *)
Theorem update_event_with_nothing_to_change :
  forall env args calendar log,
    nullish args = false ->
    (forall k, In k patch_fields -> truthy (prop args k) = false) ->
    exists r,
      handleUpdateEvent env args calendar log
        = (Return r,
           log ++ [(EventsPatch,
                    VObj [("calendarId", VStr "primary");
                          ("eventId", prop args "eventId");
                          ("requestBody", VObj [])])])%list.
Proof.
  intros env args calendar log Hargs Hfalsy.
  assert (Hbody : sparse_patch env args = []).
  { unfold sparse_patch, sparse, patch_fields, flat_map.
    rewrite !Hfalsy; [reflexivity | | | | | |]; simpl; tauto. }
  eexists.
  rewrite (handleUpdateEvent_run env args calendar log Hargs).
  - rewrite Hbody. reflexivity.
  - left. apply Hfalsy. simpl. tauto.
Qed.

Lemma update_event_with_nothing_to_change_witness :
  exists r,
    handleUpdateEvent env_2024
        (VObj [("eventId", VStr "abc123"); ("summary", VStr "")])
        calendar_creating []
      = (Return r,
         [(EventsPatch,
           VObj [("calendarId", VStr "primary");
                 ("eventId", VStr "abc123");
                 ("requestBody", VObj [])])]).
Proof.
  apply (update_event_with_nothing_to_change env_2024
           (VObj [("eventId", VStr "abc123"); ("summary", VStr "")])
           calendar_creating [] eq_refl).
  intros k Hk. simpl in Hk.
  repeat (destruct Hk as [<- | Hk]; [reflexivity |]). destruct Hk.
Defined.

(** *** Answers the handlers cannot read *)

Lemma response_id_no_data response :
  no_data response -> exists e, outcome (response_id response) = Throw e.
Proof.
  unfold outcome, response_id, bind, get.
  intros [H | H].
  - rewrite H. eexists. reflexivity.
  - destruct (nullish response); [eexists; reflexivity |].
    simpl. rewrite H. eexists. reflexivity.
Qed.

Lemma projected_no_data response :
  no_data response -> exists e, outcome (projected response) = Throw e.
Proof.
  unfold outcome, projected, bind, get.
  intros [H | H].
  - rewrite H. eexists. reflexivity.
  - destruct (nullish response); [eexists; reflexivity |].
    simpl. rewrite H. eexists. reflexivity.
Qed.

(** X6. When the provider's call resolves but the response has no
    [data] (the response or its [data] is [undefined] or [null]),
    create_event, update_event and list_events each return an [isError]
    result under their label, although the call was made: an error
    result from create_event or update_event does not mean the provider
    left the calendar unchanged. *)
Theorem response_without_data_is_reported_as_error :
  forall env args calendar log response,
    no_data response ->
    (forall attendees,
        nullish args = false ->
        default_to (prop args "attendees") (VArr []) = VArr attendees ->
        events_insert calendar (insert_request env args attendees)
          = Return response ->
        exists msg,
          handleCreateEvent env args calendar log
            = (Return (error_result ("Error creating event: " ++ msg)),
               log ++ [(EventsInsert, insert_request env args attendees)])%list)
    /\ (nullish args = false ->
        truthy (prop args "attendees") = false
        \/ is_array (prop args "attendees") = true ->
        events_patch calendar (patch_request args (sparse_patch env args))
          = Return response ->
        exists msg,
          handleUpdateEvent env args calendar log
            = (Return (error_result ("Error updating event: " ++ msg)),
               log ++ [(EventsPatch,
                        patch_request args (sparse_patch env args))])%list)
    /\ (events_list calendar (list_request env args) = Return response ->
        exists msg,
          handleListEvents env args calendar log
            = (Return (error_result
                         ("Error fetching calendar events: " ++ msg)),
               log ++ [(EventsList, list_request env args)])%list).
Proof.
  intros env args calendar log response Hdata.
  destruct (response_id_no_data response Hdata) as [e He].
  destruct (projected_no_data response Hdata) as [e' He'].
  split; [| split].
  - intros attendees Hargs Hatt Hresp.
    rewrite (handleCreateEvent_run env args calendar log attendees Hargs Hatt).
    rewrite Hresp, He. eexists. reflexivity.
  - intros Hargs Hatt Hresp.
    rewrite (handleUpdateEvent_run env args calendar log Hargs Hatt).
    cbv zeta. rewrite Hresp, He. eexists. reflexivity.
  - intros Hresp.
    rewrite handleListEvents_run, Hresp, He'. eexists. reflexivity.
Qed.

Lemma response_without_data_is_reported_as_error_witness :
  exists msg,
    handleCreateEvent env_2024 create_test_args calendar_no_data []
      = (Return (error_result ("Error creating event: " ++ msg)),
         [(EventsInsert, insert_request env_2024 create_test_args [])]).
Proof.
  exact (proj1 (response_without_data_is_reported_as_error env_2024
                  create_test_args calendar_no_data []
                  (VObj [("status", VNum 200)]) (or_intror eq_refl))
               [] eq_refl eq_refl eq_refl).
Defined.

(** *** What list_events makes of the provider's items *)

Lemma mapM_project_nullish items :
  Exists (fun event => nullish event = true) items ->
  exists e, forall log, mapM project items log = (Throw e, log).
Proof.
  induction items as [| event rest IH]; intro H.
  - inversion H.
  - destruct (nullish event) eqn:Hevent.
    + eexists. intro log. simpl. unfold bind at 1.
      unfold project, bind, get. rewrite Hevent. reflexivity.
    + inversion H as [? ? Hhead | ? ? Htail]; subst; [congruence |].
      destruct (IH Htail) as [e He]. exists e. intro log.
      simpl. unfold bind. rewrite (project_defined event Hevent), He.
      reflexivity.
Qed.

(** X7. If one of the events the provider returns is [null] or
    [undefined], list_events returns an [isError] result for the whole
    call: no partial list is produced. *)
Theorem list_events_rejects_a_missing_event :
  forall env args calendar log response items,
    events_list calendar (list_request env args) = Return response ->
    nullish response = false ->
    nullish (prop response "data") = false ->
    prop (prop response "data") "items" = VArr items ->
    Exists (fun event => nullish event = true) items ->
    exists msg,
      handleListEvents env args calendar log
        = (Return (error_result ("Error fetching calendar events: " ++ msg)),
           log ++ [(EventsList, list_request env args)])%list.
Proof.
  intros env args calendar log response items Hresp Hr Hdata Hitems Hbad.
  destruct (mapM_project_nullish items Hbad) as [e He].
  rewrite handleListEvents_run, Hresp.
  unfold outcome, projected, bind, get.
  rewrite Hr. simpl. rewrite Hdata. simpl. rewrite Hitems.
  unfold opt_call_map, call_map, bind. simpl. rewrite He.
  eexists. reflexivity.
Qed.

Lemma list_events_rejects_a_missing_event_witness :
  exists msg,
    handleListEvents env_2024 VUndefined calendar_null_event []
      = (Return (error_result ("Error fetching calendar events: " ++ msg)),
         [(EventsList, list_request env_2024 VUndefined)]).
Proof.
  apply (list_events_rejects_a_missing_event env_2024 VUndefined
           calendar_null_event []
           (VObj [("data",
                   VObj [("items", VArr [VObj [("id", VStr "e1")]; VNull])])])
           [VObj [("id", VStr "e1")]; VNull]); try reflexivity.
  apply Exists_cons_tl, Exists_cons_hd. reflexivity.
Defined.

(** X8. If the response's [items] is present but not a list, list_events
    returns the [isError] result "Error fetching calendar events:
    response.data.items?.map is not a function". *)
Theorem list_events_items_not_a_list :
  forall env args calendar log response,
    events_list calendar (list_request env args) = Return response ->
    nullish response = false ->
    nullish (prop response "data") = false ->
    nullish (prop (prop response "data") "items") = false ->
    is_array (prop (prop response "data") "items") = false ->
    handleListEvents env args calendar log
      = (Return (error_result
                   "Error fetching calendar events: response.data.items?.map is not a function"),
         log ++ [(EventsList, list_request env args)])%list.
Proof.
  intros env args calendar log response Hresp Hr Hdata Hitems Hshape.
  rewrite handleListEvents_run, Hresp.
  unfold outcome, projected, bind, get.
  rewrite Hr. simpl. rewrite Hdata. simpl.
  unfold opt_call_map. rewrite Hitems.
  destruct (prop (prop response "data") "items"); try reflexivity;
    discriminate.
Qed.

Lemma list_events_items_not_a_list_witness :
  handleListEvents env_2024 (VObj []) calendar_items_object []
    = (Return (error_result
                 "Error fetching calendar events: response.data.items?.map is not a function"),
       [(EventsList, list_request env_2024 (VObj []))]).
Proof.
  apply (list_events_items_not_a_list env_2024 (VObj []) calendar_items_object
           []
           (VObj [("data",
                   VObj [("items", VObj [("e1", VObj [("id", VStr "e1")])])])]));
    reflexivity.
Defined.

Lemma JSON_stringify_array elems :
  exists s, JSON_stringify (VArr elems) = VStr s.
Proof.
  unfold JSON_stringify. destruct elems; simpl; eexists; reflexivity.
Qed.

(** X9. When the provider returns a list of events (none of them
    [null] or [undefined]), the result's text is a string; for the
    empty list it is "[]". *)
Theorem list_events_text_is_a_string :
  forall env args calendar log response items,
    events_list calendar (list_request env args) = Return response ->
    nullish response = false ->
    nullish (prop response "data") = false ->
    prop (prop response "data") "items" = VArr items ->
    Forall (fun event => nullish event = false) items ->
    exists s,
      handleListEvents env args calendar log
        = (Return {| content := [ {| type := "text"; text := VStr s |} ];
                     isError := None |},
           log ++ [(EventsList, list_request env args)])%list
      /\ (items = [] -> s = "[]").
Proof.
  intros env args calendar log response items Hresp Hr Hdata Hitems Hall.
  destruct (JSON_stringify_array (map projection items)) as [s Hs].
  exists s. split.
  - rewrite handleListEvents_run, Hresp.
    rewrite (projected_items response items Hr Hdata Hitems Hall), Hs.
    reflexivity.
  - intros ->. simpl in Hs. unfold JSON_stringify in Hs. simpl in Hs.
    congruence.
Qed.

Lemma list_events_text_is_a_string_witness :
  handleListEvents env_2024 (VObj []) calendar_creating []
    = (Return (text_result (VStr "[]")),
       [(EventsList, list_request env_2024 (VObj []))]).
Proof.
  destruct (list_events_text_is_a_string env_2024 (VObj []) calendar_creating
              [] (VObj [("data", VObj [("items", VArr [])])]) []
              eq_refl eq_refl eq_refl eq_refl (Forall_nil _))
    as (s & Hrun & Hempty).
  rewrite Hrun, (Hempty eq_refl). reflexivity.
Defined.

(** *** Which provider calls a tool can make *)

Lemma targets_without_call op m :
  (forall log, exists r, m log = (Return r, log)) -> targets op m.
Proof.
  intros H log. destruct (H log) as [r Hr].
  exists r, []. rewrite app_nil_r.
  split; [exact Hr |]. intros op' request [].
Qed.

Ltac target_one_call Hrun :=
  intro log; eexists; eexists;
  split; [apply Hrun |];
  intros op' request [Heq | []];
  inversion Heq; subst op' request; split; reflexivity.

Lemma handleListEvents_targets env args calendar :
  targets EventsList (handleListEvents env args calendar).
Proof. target_one_call handleListEvents_run. Qed.

Lemma handleDeleteEvent_targets args calendar :
  targets EventsDelete (handleDeleteEvent args calendar).
Proof.
  destruct (nullish args) eqn:Hargs.
  - apply targets_without_call. intro log. eexists.
    now apply handleDeleteEvent_no_args.
  - target_one_call (fun log => handleDeleteEvent_run args calendar log Hargs).
Qed.

Lemma handleCreateEvent_targets env args calendar :
  targets EventsInsert (handleCreateEvent env args calendar).
Proof.
  destruct (nullish args) eqn:Hargs.
  - apply targets_without_call. intro log.
    destruct (handleCreateEvent_early env args calendar log) as [msg Hmsg];
      [now left | eexists; exact Hmsg].
  - destruct (is_array (default_to (prop args "attendees") (VArr []))) eqn:Ha.
    + destruct (default_to (prop args "attendees") (VArr [])) eqn:Hatt;
        try discriminate Ha.
      target_one_call
        (fun log => handleCreateEvent_run env args calendar log elems Hargs Hatt).
    + apply targets_without_call. intro log.
      destruct (handleCreateEvent_early env args calendar log) as [msg Hmsg];
        [now right | eexists; exact Hmsg].
Qed.

Lemma handleUpdateEvent_targets env args calendar :
  targets EventsPatch (handleUpdateEvent env args calendar).
Proof.
  destruct (nullish args) eqn:Hargs;
    [| destruct (truthy (prop args "attendees")) eqn:Ht;
       [destruct (is_array (prop args "attendees")) eqn:Ha |]].
  1, 3: (apply targets_without_call; intro log;
         destruct (handleUpdateEvent_early env args calendar log) as [msg Hmsg];
         [tauto | eexists; exact Hmsg]).
  - target_one_call
      (fun log => handleUpdateEvent_run env args calendar log Hargs
                    (or_intror Ha)).
  - target_one_call
      (fun log => handleUpdateEvent_run env args calendar log Hargs
                    (or_introl Ht)).
Qed.

(** X10. Whatever the arguments and the provider's answers, a tool calls
    only its own operation of the Calendar Client (list_events lists,
    create_event inserts, update_event patches, delete_event deletes)
    and only on calendar "primary". *)
Theorem tools_call_their_own_operation :
  forall env calendar params log,
    In (params_name params) tool_names ->
    exists r calls,
      dispatch env calendar params log = (Return r, log ++ calls)%list
      /\ forall op request,
           In (op, request) calls ->
           op = tool_op (params_name params)
           /\ prop request "calendarId" = VStr "primary".
Proof.
  intros env calendar [tool args] log Hname. simpl in Hname.
  unfold dispatch, dispatch_on. cbn [params_name params_arguments].
  destruct Hname as [<- | [<- | [<- | [<- | []]]]]; cbn -[handleListEvents
    handleCreateEvent handleUpdateEvent handleDeleteEvent].
  - apply handleListEvents_targets.
  - apply handleCreateEvent_targets.
  - apply handleUpdateEvent_targets.
  - apply handleDeleteEvent_targets.
Qed.

Lemma tools_call_their_own_operation_witness :
  exists r calls,
    dispatch env_2024 calendar_creating
        {| params_name := "delete_event";
           params_arguments := VObj [("eventId", VStr "abc123")] |} []
      = (Return r, calls)
    /\ forall op request,
         In (op, request) calls ->
         op = EventsDelete /\ prop request "calendarId" = VStr "primary".
Proof.
  apply (tools_call_their_own_operation env_2024 calendar_creating
           {| params_name := "delete_event";
              params_arguments := VObj [("eventId", VStr "abc123")] |} []).
  simpl. tauto.
Defined.

(** *** The dispatcher and the catalogue *)

Lemma dispatch_default env calendar params log :
  ~ In (params_name params) tool_names ->
  exists e, dispatch env calendar params log = (Throw e, log).
Proof.
  intro Hname. unfold dispatch, dispatch_on.
  rewrite !eqb_false_of_neq; [eexists; reflexivity | | | |];
    intro Heq; apply Hname; rewrite Heq; simpl; auto.
Qed.

(** X11. The dispatcher and the catalogue agree: a call returns a
    [ToolResult] exactly when its name is the name of a listed tool, and
    is refused with a thrown error otherwise. *)
Theorem dispatch_returns_iff_listed :
  forall env calendar params log,
    (exists r log', dispatch env calendar params log = (Return r, log'))
    <-> In (params_name params) (map name tools).
Proof.
  intros env calendar params log.
  change (map name tools) with tool_names.
  split.
  - intros (r & log' & Hrun).
    destruct (in_dec string_dec (params_name params) tool_names) as [Hin | Hout];
      [exact Hin |].
    destruct (dispatch_default env calendar params log Hout) as [e He].
    congruence.
  - intro Hin.
    destruct params as [tool args]. simpl in Hin.
    unfold dispatch, dispatch_on. cbn [params_name params_arguments].
    destruct Hin as [<- | [<- | [<- | [<- | []]]]]; cbn -[handleListEvents
      handleCreateEvent handleUpdateEvent handleDeleteEvent].
    + destruct (handleListEvents_targets env args calendar log)
        as (r & calls & Hrun & _); eauto.
    + destruct (handleCreateEvent_targets env args calendar log)
        as (r & calls & Hrun & _); eauto.
    + destruct (handleUpdateEvent_targets env args calendar log)
        as (r & calls & Hrun & _); eauto.
    + destruct (handleDeleteEvent_targets args calendar log)
        as (r & calls & Hrun & _); eauto.
Qed.

(** X12. The only error the dispatcher throws is the unknown-tool
    error: if a call ends in a throw, the name is not a tool name, the
    error is [McpError(MethodNotFound, "Unknown tool: <name>")], and no
    provider call was made. *)
Theorem dispatch_throws_only_for_unknown_tools :
  forall env calendar params log e log',
    dispatch env calendar params log = (Throw e, log') ->
    ~ In (params_name params) tool_names
    /\ e = McpError MethodNotFound ("Unknown tool: " ++ params_name params)
    /\ log' = log.
Proof.
  intros env calendar params log e log' Hrun.
  destruct (in_dec string_dec (params_name params) tool_names) as [Hin | Hout].
  - exfalso.
    assert (Hret : exists r log'',
               dispatch env calendar params log = (Return r, log'')).
    { destruct params as [tool args]. simpl in Hin.
      unfold dispatch, dispatch_on. cbn [params_name params_arguments].
      destruct Hin as [<- | [<- | [<- | [<- | []]]]]; cbn -[handleListEvents
        handleCreateEvent handleUpdateEvent handleDeleteEvent].
      - destruct (handleListEvents_targets env args calendar log)
          as (r & calls & H & _); eauto.
      - destruct (handleCreateEvent_targets env args calendar log)
          as (r & calls & H & _); eauto.
      - destruct (handleUpdateEvent_targets env args calendar log)
          as (r & calls & H & _); eauto.
      - destruct (handleDeleteEvent_targets args calendar log)
          as (r & calls & H & _); eauto. }
    destruct Hret as (r & log'' & Hret). congruence.
  - split; [exact Hout |].
    revert Hrun. unfold dispatch, dispatch_on.
    rewrite !eqb_false_of_neq;
      [| intro Heq; apply Hout; rewrite Heq; simpl; auto ..].
    intro Hrun. inversion Hrun. split; reflexivity.
Qed.

Lemma dispatch_throws_only_for_unknown_tools_witness :
  ~ In "Delete_Event" tool_names.
Proof.
  exact (proj1 (dispatch_throws_only_for_unknown_tools env_2024
                  calendar_creating
                  {| params_name := "Delete_Event";
                     params_arguments := VObj [("eventId", VStr "abc123")] |}
                  [] (McpError MethodNotFound "Unknown tool: Delete_Event") []
                  eq_refl)).
Defined.

(** *** Arguments the handlers do not read *)

(** A handler reads its argument object only under the names of
    [read_keys]. *)
Lemma dispatch_reads_only env calendar tool args args' log :
  In tool tool_names ->
  nullish args = false ->
  nullish args' = false ->
  (forall k, In k (read_keys tool) -> prop args k = prop args' k) ->
  dispatch env calendar
      {| params_name := tool; params_arguments := args |} log
  = dispatch env calendar
      {| params_name := tool; params_arguments := args' |} log.
Proof.
  intros Htool Hargs Hargs' Hsame.
  unfold dispatch, dispatch_on. cbn [params_name params_arguments].
  destruct Htool as [<- | [<- | [<- | [<- | []]]]];
    cbn -[handleListEvents handleCreateEvent handleUpdateEvent
          handleDeleteEvent];
    cbn in Hsame.
  - unfold handleListEvents, list_request, opt_prop.
    rewrite Hargs, Hargs'.
    rewrite (Hsame "maxResults"), (Hsame "timeMin"), (Hsame "timeMax")
      by tauto.
    reflexivity.
  - unfold handleCreateEvent, destructurable.
    rewrite Hargs, Hargs'. cbv zeta.
    rewrite (Hsame "summary"), (Hsame "location"), (Hsame "description"),
      (Hsame "start"), (Hsame "end"), (Hsame "attendees") by tauto.
    reflexivity.
  - unfold handleUpdateEvent, destructurable.
    rewrite Hargs, Hargs'. cbv zeta.
    rewrite (Hsame "eventId"), (Hsame "summary"), (Hsame "location"),
      (Hsame "description"), (Hsame "start"), (Hsame "end"),
      (Hsame "attendees") by tauto.
    reflexivity.
  - unfold handleDeleteEvent, destructurable.
    rewrite Hargs, Hargs'. cbv zeta.
    rewrite (Hsame "eventId") by tauto.
    reflexivity.
Qed.

(** X13. A listed tool's outcome depends on its argument object only
    through the properties its input schema declares: two argument
    objects that agree on them give the same result and the same
    provider call, so arguments outside the schema are ignored. *)
Theorem undeclared_arguments_are_ignored :
  forall env calendar t args args' log,
    In t tools ->
    nullish args = false ->
    nullish args' = false ->
    (forall k, In k (offered_fields t) -> prop args k = prop args' k) ->
    dispatch env calendar
        {| params_name := name t; params_arguments := args |} log
    = dispatch env calendar
        {| params_name := name t; params_arguments := args' |} log.
Proof.
  intros env calendar t args args' log Ht Hargs Hargs' Hsame.
  apply dispatch_reads_only; try assumption.
  - apply (in_map name) in Ht. exact Ht.
  - intros k Hk. apply Hsame.
    simpl in Ht. destruct Ht as [<- | [<- | [<- | [<- | []]]]]; exact Hk.
Qed.

Lemma undeclared_arguments_are_ignored_witness :
  dispatch env_2024 calendar_creating
      {| params_name := "delete_event";
         params_arguments := VObj [("eventId", VStr "abc123")] |} []
  = dispatch env_2024 calendar_creating
      {| params_name := "delete_event";
         params_arguments :=
           VObj [("calendarId", VStr "work"); ("eventId", VStr "abc123")] |} [].
Proof.
  apply (undeclared_arguments_are_ignored env_2024 calendar_creating
           {| name := "delete_event";
              description := "Delete a calendar event";
              inputSchema :=
                {| schema_type := "object";
                   properties := [ ("eventId", str_prop "Event ID to delete") ];
                   required := Some ["eventId"] |} |}
           (VObj [("eventId", VStr "abc123")])
           (VObj [("calendarId", VStr "work"); ("eventId", VStr "abc123")]) []).
  - simpl. tauto.
  - reflexivity.
  - reflexivity.
  - intros k Hk. simpl in Hk. destruct Hk as [<- | []]. reflexivity.
Defined.

(** *** update_event against create_event *)

(** X14. When all six fields are given (truthy, with a list of
    attendees), update_event sends as its patch the very object
    create_event sends as the new event for the same arguments: both
    build [start], [end] and [attendees] the same way. *)
Theorem full_update_sends_the_created_event :
  forall env args calendar log attendees,
    nullish args = false ->
    (forall k, In k patch_fields -> truthy (prop args k) = true) ->
    prop args "attendees" = VArr attendees ->
    exists r r' body,
      handleCreateEvent env args calendar log
        = (Return r,
           log ++ [(EventsInsert,
                    VObj [("calendarId", VStr "primary");
                          ("requestBody", VObj body)])])%list
      /\ handleUpdateEvent env args calendar log
        = (Return r',
           log ++ [(EventsPatch,
                    VObj [("calendarId", VStr "primary");
                          ("eventId", prop args "eventId");
                          ("requestBody", VObj body)])])%list.
Proof.
  intros env args calendar log attendees Hargs Htruthy Hatt.
  assert (Hbody : sparse_patch env args
                  = [("summary", prop args "summary");
                     ("location", prop args "location");
                     ("description", prop args "description");
                     ("start", endpoint env (prop args "start"));
                     ("end", endpoint env (prop args "end"));
                     ("attendees", VArr (map attendee_object attendees))]).
  { unfold sparse_patch, sparse, patch_fields, flat_map.
    rewrite !Htruthy by (simpl; tauto).
    unfold patch_value. simpl. rewrite Hatt. reflexivity. }
  eexists; eexists; eexists. split.
  - apply (handleCreateEvent_run env args calendar log attendees Hargs).
    now rewrite Hatt.
  - rewrite (handleUpdateEvent_run env args calendar log Hargs)
      by (right; now rewrite Hatt).
    cbv zeta. rewrite Hbody. reflexivity.
Qed.

Lemma full_update_sends_the_created_event_witness :
  exists r r' body,
    handleCreateEvent env_2024 full_args calendar_creating []
      = (Return r,
         [(EventsInsert,
           VObj [("calendarId", VStr "primary"); ("requestBody", VObj body)])])
    /\ handleUpdateEvent env_2024 full_args calendar_creating []
      = (Return r',
         [(EventsPatch,
           VObj [("calendarId", VStr "primary");
                 ("eventId", VStr "abc123");
                 ("requestBody", VObj body)])]).
Proof.
  apply (full_update_sends_the_created_event env_2024 full_args
           calendar_creating []
           [VStr "ada@example.org"; VStr "bob@example.org"] eq_refl).
  - intros k Hk. simpl in Hk.
    repeat (destruct Hk as [<- | Hk]; [reflexivity |]). destruct Hk.
  - reflexivity.
Defined.

(** *** Fields that do not reach the text *)

Lemma json_serialize_defined_props indent props :
  json_serialize indent (VObj props)
  = json_serialize indent (VObj (defined_props props)).
Proof.
  cbn [json_serialize].
  lazymatch goal with
  | |- match ?go props with [] => _ | _ :: _ => _ end = _ =>
      set (members := go)
  end.
  assert (H : members props = members (defined_props props)).
  { induction props as [| [k x] rest IH]; [reflexivity |].
    destruct x; simpl; rewrite IH; reflexivity. }
  rewrite H. reflexivity.
Qed.

Lemma json_serialize_array_ext indent (f g : value -> value) l :
  (forall x, json_serialize (indent ++ "  ") (f x)
             = json_serialize (indent ++ "  ") (g x)) ->
  json_serialize indent (VArr (map f l))
  = json_serialize indent (VArr (map g l)).
Proof.
  intro H. destruct l as [| x rest]; [reflexivity |].
  cbn [json_serialize map].
  rewrite H. do 7 f_equal.
  rewrite !map_map. apply map_ext. intro y. now rewrite H.
Qed.

(** X15. The text list_events returns mentions, for each event, only
    those of the five projected fields that the provider's event has: a
    field the event lacks is [undefined] in the projection and
    [JSON.stringify] leaves it out. *)
Theorem list_events_text_omits_missing_fields :
  forall env args calendar log response items,
    events_list calendar (list_request env args) = Return response ->
    nullish response = false ->
    nullish (prop response "data") = false ->
    prop (prop response "data") "items" = VArr items ->
    Forall (fun event => nullish event = false) items ->
    handleListEvents env args calendar log
      = (Return {| content :=
                     [ {| type := "text";
                          text := JSON_stringify
                                    (VArr (map present_projection items)) |} ];
                   isError := None |},
         log ++ [(EventsList, list_request env args)])%list.
Proof.
  intros env args calendar log response items Hresp Hr Hdata Hitems Hall.
  rewrite handleListEvents_run, Hresp.
  rewrite (projected_items response items Hr Hdata Hitems Hall).
  unfold JSON_stringify.
  rewrite (json_serialize_array_ext "" projection present_projection);
    [reflexivity |].
  intro event. apply json_serialize_defined_props.
Qed.

Lemma list_events_text_omits_missing_fields_witness :
  handleListEvents env_2024 (VObj []) calendar_two_events []
    = (Return (text_result
                 (JSON_stringify
                    (VArr [ VObj [("id", VStr "e1"); ("summary", VStr "Standup");
                                  ("start", VObj [("dateTime", VStr "2024-01-01T10:00:00Z")]);
                                  ("end", VObj [("dateTime", VStr "2024-01-01T10:15:00Z")])];
                            VObj [("id", VStr "e2"); ("summary", VStr "Review");
                                  ("start", VObj [("dateTime", VStr "2024-01-02T10:00:00Z")]);
                                  ("end", VObj [("dateTime", VStr "2024-01-02T11:00:00Z")]);
                                  ("location", VStr "Room 4")] ]))),
       [(EventsList, list_request env_2024 (VObj []))]).
Proof.
  apply (list_events_text_omits_missing_fields env_2024 (VObj [])
           calendar_two_events []
           (VObj [("data", VObj [("items", VArr two_events)])]) two_events);
    try reflexivity.
  repeat constructor.
Defined.

(* ===================================================================== *)
(** ** Properties of the construction and start-up *)
(* ===================================================================== *)

Lemma getenv_shape k process_env :
  Bootstrap.getenv k process_env = VUndefined
  \/ exists s, Bootstrap.getenv k process_env = VStr s.
Proof.
  induction process_env as [| [k' v] rest IH]; simpl.
  - now left.
  - destruct (k' =? k); [right; now exists v | exact IH].
Qed.

Lemma truthy_not_undefined v : truthy v = true -> v <> VUndefined.
Proof. intros H ->. discriminate H. Qed.

(** X16. Each of the three credentials is resolved on its own: the
    configuration's value when that is truthy, otherwise whatever the
    environment holds under the same name. A credential is [undefined]
    exactly when the configuration gives no truthy value and the
    variable is unset; the construction does not check for that. *)
Theorem credentials_from_config_then_environment :
  forall config process_env k v,
    In (k, v) (credentials (Bootstrap.createMcpServer config process_env)) ->
    (truthy (opt_prop config k) = true -> v = opt_prop config k)
    /\ (truthy (opt_prop config k) = false ->
        v = Bootstrap.getenv k process_env)
    /\ (v = VUndefined <->
        truthy (opt_prop config k) = false
        /\ Bootstrap.getenv k process_env = VUndefined).
Proof.
  intros config process_env k v Hin.
  assert (Hv : v = or_else (opt_prop config k)
                           (Bootstrap.getenv k process_env)).
  { simpl in Hin.
    destruct Hin as [H | [H | [H | []]]]; inversion H; reflexivity. }
  subst v. unfold or_else.
  destruct (truthy (opt_prop config k)) eqn:Ht.
  - split; [reflexivity |]. split; [discriminate |].
    split.
    + intro H. now apply truthy_not_undefined in Ht.
    + intros [H _]. discriminate H.
  - split; [discriminate |]. split; [reflexivity |].
    split; [intro H; now split | now intros [_ H]].
Qed.

Lemma credentials_from_config_then_environment_witness :
  let setup := Bootstrap.createMcpServer partial_config partial_environment in
  Bootstrap.CLIENT_ID setup = VStr "id-from-config"
  /\ Bootstrap.CLIENT_SECRET setup = VStr "secret-from-env"
  /\ Bootstrap.REFRESH_TOKEN setup = VUndefined.
Proof.
  intro setup.
  split; [| split].
  - apply (proj1 (credentials_from_config_then_environment partial_config
                    partial_environment "CLIENT_ID" _ (or_introl eq_refl))).
    reflexivity.
  - apply (proj1 (proj2 (credentials_from_config_then_environment
                           partial_config partial_environment "CLIENT_SECRET" _
                           (or_intror (or_introl eq_refl))))).
    reflexivity.
  - apply (proj2 (proj2 (credentials_from_config_then_environment
                           partial_config partial_environment "REFRESH_TOKEN" _
                           (or_intror (or_intror (or_introl eq_refl)))))).
    split; reflexivity.
Defined.

(** X17. The listening port is the [PORT] variable, as the string it is
    set to, whenever that is set and not empty (the string "0"
    included), and the number 8081 otherwise; it is never [undefined]
    or empty. *)
Theorem port_from_environment_or_8081 :
  forall process_env,
    (forall s, Bootstrap.getenv "PORT" process_env = VStr s -> s <> "" ->
               Bootstrap.port process_env = VStr s)
    /\ (Bootstrap.getenv "PORT" process_env = VUndefined
        \/ Bootstrap.getenv "PORT" process_env = VStr "" ->
        Bootstrap.port process_env = VNum 8081)
    /\ truthy (Bootstrap.port process_env) = true.
Proof.
  intro process_env. unfold Bootstrap.port, or_else.
  split; [| split].
  - intros s Hs Hne. rewrite Hs. simpl.
    destruct (s =? "") eqn:E; [apply String.eqb_eq in E; contradiction |].
    reflexivity.
  - intros [H | H]; rewrite H; reflexivity.
  - destruct (getenv_shape "PORT" process_env) as [H | [s H]]; rewrite H.
    + reflexivity.
    + simpl. destruct (s =? "") eqn:E; simpl; [reflexivity | now rewrite E].
Qed.

Lemma port_from_environment_or_8081_witness :
  Bootstrap.port [("PORT", "0")] = VStr "0"
  /\ Bootstrap.port [("PORT", "")] = VNum 8081
  /\ Bootstrap.port [("HOME", "/root")] = VNum 8081.
Proof.
  split; [| split].
  - apply (proj1 (port_from_environment_or_8081 [("PORT", "0")]) "0" eq_refl).
    discriminate.
  - apply (proj1 (proj2 (port_from_environment_or_8081 [("PORT", "")]))).
    now right.
  - apply (proj1 (proj2 (port_from_environment_or_8081 [("HOME", "/root")]))).
    now left.
Defined.
